(** * Event reconciler of the research-agent UI

    A shallow embedding of the WebSocket event handler
    ([ui/src/hooks/useWebSocket.ts], [handleWSMessage]) and of the
    sub-agent carousel helpers ([SubAgentCarousel], [parseFinalOutput]),
    together with the properties the specification states about them.

    Modelling conventions.
    - Values typed [any] in the source (event payloads, tool-call arguments
      and results) are JSON trees, [value].  A number of a payload is the
      exact rational value of its double; [NaN] and the infinities are not
      represented.  Where the source computes with numbers whose rounding
      decides the result (the percentage of the carousel), the computation
      is done in IEEE-754 binary64.
    - A JavaScript object used as a dictionary ([tool_calls], the sub-agent
      registry) is a [gmap string _] of its own properties; the [Set] of
      processed task ids is a [gset string].  A lookup [obj[key]] also finds
      what the object inherits from [Object.prototype] ([inherited_name]).
      The registration loop and the carousel model that.  The routing test
      of [handleWSMessage] is modelled for task ids that are no such name;
      the properties that depend on the routing of an arbitrary task id
      assume it.
    - React state cells and [useRef] cells are separate fields of [State].  A
      state updater passed to a setter is applied at once, so one event is
      processed completely before the next one.  [App] passes every setter,
      so the optional calls [setSubAgentProgress?.(...)] and
      [setResearchProgress?.(...)] always run.
    - Code that may raise a [TypeError] (a property read on [undefined] or
      [null]) lives in the [outcome] monad.
    - Built-ins of the JavaScript runtime whose result is not computed here
      ([JSON.parse], [JSON.stringify], [ToString] on non-strings, [ToNumber]
      on non-numbers) are the operations of the class [JsRuntime]. *)

From Stdlib Require Import QArith Qround Lqa.
From Stdlib Require Import Floats.SpecFloat.
From stdpp Require Import base option list gmap strings fin_maps pretty.

Local Open Scope string_scope.

(** ** JSON values *)

#[warnings="-register-all"]
Inductive value : Type :=
  | VUndef
  | VNull
  | VBool (b : bool)
  | VNum (q : Q)
  | VStr (s : string)
  | VArr (items : list value)
  | VObj (fields : list (string * value)).

(** [!v] is [negb (truthy v)]. *)
Definition truthy (v : value) : bool :=
  match v with
  | VUndef | VNull => false
  | VBool b => b
  | VNum q => negb (Qeq_bool q 0)
  | VStr s => negb (String.eqb s "")
  | VArr _ | VObj _ => true
  end.

Definition nullish (v : value) : bool :=
  match v with
  | VUndef | VNull => true
  | _ => false
  end.

Definition isArray (v : value) : bool :=
  match v with
  | VArr _ => true
  | _ => false
  end.

Definition is_string (v : value) : bool :=
  match v with
  | VStr _ => true
  | _ => false
  end.

Definition is_number (v : value) : bool :=
  match v with
  | VNum _ => true
  | _ => false
  end.

Fixpoint assoc (k : string) (fields : list (string * value)) : value :=
  match fields with
  | [] => VUndef
  | (k', v) :: rest => if String.eqb k k' then v else assoc k rest
  end.

(** [v.k] for a [v] that is neither [undefined] nor [null], for the property
    names the source reads ([args], [result], [tool_call], [function], [id],
    [name], [arguments], [output_data], [progress], [batch_id],
    [final_output], [results], [findings]): primitives and arrays have none
    of them. *)
Definition prop (v : value) (k : string) : value :=
  match v with
  | VObj fields => assoc k fields
  | _ => VUndef
  end.

(** ** Exceptions *)

Inductive exn : Type := TypeError.

Inductive outcome (A : Type) : Type :=
  | Ok (a : A)
  | Throw (e : exn).
Arguments Ok {A} a.
Arguments Throw {A} e.

#[global] Instance outcome_ret : MRet outcome := fun A a => Ok a.
#[global] Instance outcome_bind : MBind outcome := fun A B f m =>
  match m with
  | Ok a => f a
  | Throw e => Throw e
  end.

(** [v.k]: raises when [v] is [undefined] or [null]. *)
Definition get (v : value) (k : string) : outcome value :=
  if nullish v then Throw TypeError else Ok (prop v k).

(** [v?.k] *)
Definition opt_get (v : value) (k : string) : value :=
  if nullish v then VUndef else prop v k.

(** [v?.[0]] *)
Definition opt_index0 (v : value) : value :=
  match v with
  | VArr items => hd VUndef items
  | VStr (String c _) => VStr (String c "")
  | VObj fields => assoc "0" fields
  | _ => VUndef
  end.

(** [a ?? b] *)
Definition nullish_coalesce (a b : value) : value :=
  if nullish a then b else a.

(** [a || b] *)
Definition or_else (a b : value) : value :=
  if truthy a then a else b.

(** ** Runtime built-ins *)

Class JsRuntime : Type := {
  (** [JSON.parse]; [None] stands for a [SyntaxError]. *)
  JSON_parse : string -> option value;
  (** [JSON.stringify(v, null, 2)] *)
  JSON_stringify : value -> value;
  (** [ToString] on a value that is not a string *)
  ToString : value -> string;
  (** [ToNumber] on a value that is not a number; [None] stands for [NaN]. *)
  ToNumber : value -> option Q
}.

(** The key under which [obj[v]] reads and writes. *)
Definition to_key `{JsRuntime} (v : value) : string :=
  match v with
  | VStr s => s
  | _ => ToString v
  end.

(** The names that every plain object inherits from [Object.prototype].
    Under each of them [obj[key]] finds, on an object without such a property
    of its own, a function or (for [__proto__]) the prototype object: a
    truthy value with none of the properties of a Task Progress. *)
Definition inherited_name (key : string) : bool :=
  existsb (String.eqb key)
    ["constructor"; "hasOwnProperty"; "isPrototypeOf"; "propertyIsEnumerable";
     "toLocaleString"; "toString"; "valueOf"; "__proto__";
     "__defineGetter__"; "__defineSetter__"; "__lookupGetter__";
     "__lookupSetter__"].

(** [Math.round] on a number: the closest integer, ties towards +infinity. *)
Definition round_number (q : Q) : Z := Qfloor (q + (1 # 2)).

(** ** IEEE-754 binary64 *)

(** The double of an integer (exact below 2^53). *)
Definition double_of_Z (z : Z) : spec_float := binary_normalize 53 1024 z 0 false.

(** [x / y] and [x * y] on doubles, rounding to nearest, ties to even. *)
Definition double_div : spec_float -> spec_float -> spec_float := SFdiv 53 1024.
Definition double_mul : spec_float -> spec_float -> spec_float := SFmul 53 1024.

(** The exact value of a finite double. *)
Definition double_value (x : spec_float) : option Q :=
  match x with
  | S754_zero _ => Some 0%Q
  | S754_finite sign m e =>
      Some (inject_Z (if sign then Z.neg m else Z.pos m) * Qpower 2 e)%Q
  | S754_infinity _ | S754_nan => None
  end.

(** [Math.round] on a double; [None] for [NaN] and the infinities, which it
    returns as they are. *)
Definition Math_round_double (x : spec_float) : option Z :=
  round_number <$> double_value x.

Definition Math_round `{JsRuntime} (v : value) : option Z :=
  match v with
  | VNum q => Some (round_number q)
  | _ => round_number <$> ToNumber v
  end.

(** ** Data model (types.ts) *)

Inductive Status : Type := started | completed | failed.

Module ToolCall.
(** A field that is absent holds [VUndef]. *)
Record t : Type := mk {
  id : value;
  tool_name : value;
  arguments : value;
  status : Status;
  result : value;
  error : value
}.
End ToolCall.

Module ThinkingProgress.
Record t : Type := mk {
  task_id : value;
  tool_calls : gmap string ToolCall.t;
  is_complete : bool;
  final_output : value;
  error : value
}.
End ThinkingProgress.

Module AgentEvent.
Record t : Type := mk {
  task_id : string;
  event_type : string;
  data : value;
  error : value;
  progress : value
}.
End AgentEvent.

Module Message.
Record t : Type := mk {
  id : value;
  role : value;
  content : value;
  timestamp : value;
  thinking : option ThinkingProgress.t
}.
End Message.

Inductive SteeringStatus : Type := idle | sending | applied | steering_failed.

(** The two clock reads of one handler run: [Date.now()] and [new Date()]. *)
Record Clock : Type := {
  Date_now : Z;
  new_Date : Z
}.

(** The React state cells of [App] that the handler writes, and the [useRef]
    cells of [useWebSocket]. *)
Record State : Type := mkState {
  messages : list Message.t;
  currentThinking : option ThinkingProgress.t;
  loading : bool;
  currentTaskId : option string;
  cancelling : bool;
  steering : bool;
  steerMode : bool;
  steeringStatus : option SteeringStatus;
  subAgentProgress : gmap string ThinkingProgress.t;
  researchProgress : value;
  (** delays of the pending [setTimeout(() => setSteeringStatus(null), d)] *)
  pendingTimeouts : list Z;
  thinkingRef : option ThinkingProgress.t;
  processedTasksRef : gset string;
  subAgentProgressRef : gmap string ThinkingProgress.t
}.

Definition set_messages (f : list Message.t -> list Message.t) (s : State) : State :=
  mkState (f (messages s)) (currentThinking s) (loading s) (currentTaskId s)
    (cancelling s) (steering s) (steerMode s) (steeringStatus s)
    (subAgentProgress s) (researchProgress s) (pendingTimeouts s)
    (thinkingRef s) (processedTasksRef s) (subAgentProgressRef s).

Definition set_currentThinking (t : option ThinkingProgress.t) (s : State) : State :=
  mkState (messages s) t (loading s) (currentTaskId s)
    (cancelling s) (steering s) (steerMode s) (steeringStatus s)
    (subAgentProgress s) (researchProgress s) (pendingTimeouts s)
    (thinkingRef s) (processedTasksRef s) (subAgentProgressRef s).

Definition set_loading (b : bool) (s : State) : State :=
  mkState (messages s) (currentThinking s) b (currentTaskId s)
    (cancelling s) (steering s) (steerMode s) (steeringStatus s)
    (subAgentProgress s) (researchProgress s) (pendingTimeouts s)
    (thinkingRef s) (processedTasksRef s) (subAgentProgressRef s).

Definition set_currentTaskId (t : option string) (s : State) : State :=
  mkState (messages s) (currentThinking s) (loading s) t
    (cancelling s) (steering s) (steerMode s) (steeringStatus s)
    (subAgentProgress s) (researchProgress s) (pendingTimeouts s)
    (thinkingRef s) (processedTasksRef s) (subAgentProgressRef s).

Definition set_cancelling (b : bool) (s : State) : State :=
  mkState (messages s) (currentThinking s) (loading s) (currentTaskId s)
    b (steering s) (steerMode s) (steeringStatus s)
    (subAgentProgress s) (researchProgress s) (pendingTimeouts s)
    (thinkingRef s) (processedTasksRef s) (subAgentProgressRef s).

Definition set_steering (b : bool) (s : State) : State :=
  mkState (messages s) (currentThinking s) (loading s) (currentTaskId s)
    (cancelling s) b (steerMode s) (steeringStatus s)
    (subAgentProgress s) (researchProgress s) (pendingTimeouts s)
    (thinkingRef s) (processedTasksRef s) (subAgentProgressRef s).

Definition set_steerMode (b : bool) (s : State) : State :=
  mkState (messages s) (currentThinking s) (loading s) (currentTaskId s)
    (cancelling s) (steering s) b (steeringStatus s)
    (subAgentProgress s) (researchProgress s) (pendingTimeouts s)
    (thinkingRef s) (processedTasksRef s) (subAgentProgressRef s).

Definition set_steeringStatus (t : option SteeringStatus) (s : State) : State :=
  mkState (messages s) (currentThinking s) (loading s) (currentTaskId s)
    (cancelling s) (steering s) (steerMode s) t
    (subAgentProgress s) (researchProgress s) (pendingTimeouts s)
    (thinkingRef s) (processedTasksRef s) (subAgentProgressRef s).

Definition set_subAgentProgress (m : gmap string ThinkingProgress.t) (s : State) : State :=
  mkState (messages s) (currentThinking s) (loading s) (currentTaskId s)
    (cancelling s) (steering s) (steerMode s) (steeringStatus s)
    m (researchProgress s) (pendingTimeouts s)
    (thinkingRef s) (processedTasksRef s) (subAgentProgressRef s).

Definition set_researchProgress (v : value) (s : State) : State :=
  mkState (messages s) (currentThinking s) (loading s) (currentTaskId s)
    (cancelling s) (steering s) (steerMode s) (steeringStatus s)
    (subAgentProgress s) v (pendingTimeouts s)
    (thinkingRef s) (processedTasksRef s) (subAgentProgressRef s).

Definition setTimeout_clear_steeringStatus (delay : Z) (s : State) : State :=
  mkState (messages s) (currentThinking s) (loading s) (currentTaskId s)
    (cancelling s) (steering s) (steerMode s) (steeringStatus s)
    (subAgentProgress s) (researchProgress s) (pendingTimeouts s ++ [delay])%list
    (thinkingRef s) (processedTasksRef s) (subAgentProgressRef s).

Definition set_thinkingRef (t : option ThinkingProgress.t) (s : State) : State :=
  mkState (messages s) (currentThinking s) (loading s) (currentTaskId s)
    (cancelling s) (steering s) (steerMode s) (steeringStatus s)
    (subAgentProgress s) (researchProgress s) (pendingTimeouts s)
    t (processedTasksRef s) (subAgentProgressRef s).

(** [processedTasksRef.current.add(taskId)] *)
Definition processedTasks_add (taskId : string) (s : State) : State :=
  mkState (messages s) (currentThinking s) (loading s) (currentTaskId s)
    (cancelling s) (steering s) (steerMode s) (steeringStatus s)
    (subAgentProgress s) (researchProgress s) (pendingTimeouts s)
    (thinkingRef s) ({[taskId]} ∪ processedTasksRef s) (subAgentProgressRef s).

Definition set_subAgentProgressRef (m : gmap string ThinkingProgress.t) (s : State) : State :=
  mkState (messages s) (currentThinking s) (loading s) (currentTaskId s)
    (cancelling s) (steering s) (steerMode s) (steeringStatus s)
    (subAgentProgress s) (researchProgress s) (pendingTimeouts s)
    (thinkingRef s) (processedTasksRef s) m.

(** State of a freshly mounted [App]. *)
Definition initial_state : State :=
  mkState [] None false None false false false None ∅ VNull [] None ∅ ∅.

(** ** useWebSocket.ts: [handleWSMessage] *)

Inductive EventKind : Type :=
  | batch_progress
  | batch_completed
  | progress_update_tool_action_started
  | progress_update_tool_action_completed
  | progress_update_tool_action_failed
  | progress_update_completion_failed
  | run_steering_applied
  | run_steering_failed
  | agent_output
  | run_cancelled
  | run_failed
  | unhandled.

(** The [case] label that [event.event_type] selects. *)
Definition event_kind (event_type : string) : EventKind :=
  if String.eqb event_type "batch_progress" then batch_progress
  else if String.eqb event_type "batch_completed" then batch_completed
  else if String.eqb event_type "progress_update_tool_action_started"
    then progress_update_tool_action_started
  else if String.eqb event_type "progress_update_tool_action_completed"
    then progress_update_tool_action_completed
  else if String.eqb event_type "progress_update_tool_action_failed"
    then progress_update_tool_action_failed
  else if String.eqb event_type "progress_update_completion_failed"
    then progress_update_completion_failed
  else if String.eqb event_type "run_steering_applied" then run_steering_applied
  else if String.eqb event_type "run_steering_failed" then run_steering_failed
  else if String.eqb event_type "agent_output" then agent_output
  else if String.eqb event_type "run_cancelled" then run_cancelled
  else if String.eqb event_type "run_failed" then run_failed
  else unhandled.

(** [{ task_id: id, tool_calls: {}, is_complete: false }] *)
Definition empty_progress (id : value) : ThinkingProgress.t :=
  ThinkingProgress.mk id ∅ false VUndef VUndef.

Definition with_tool_calls (calls : gmap string ToolCall.t)
    (p : ThinkingProgress.t) : ThinkingProgress.t :=
  ThinkingProgress.mk (ThinkingProgress.task_id p) calls
    (ThinkingProgress.is_complete p) (ThinkingProgress.final_output p)
    (ThinkingProgress.error p).

Definition with_error (err : value) (p : ThinkingProgress.t) : ThinkingProgress.t :=
  ThinkingProgress.mk (ThinkingProgress.task_id p) (ThinkingProgress.tool_calls p)
    (ThinkingProgress.is_complete p) (ThinkingProgress.final_output p) err.

(** [{ ...p, is_complete: true, final_output: out }] *)
Definition complete_with_output (out : value) (p : ThinkingProgress.t)
    : ThinkingProgress.t :=
  ThinkingProgress.mk (ThinkingProgress.task_id p) (ThinkingProgress.tool_calls p)
    true out (ThinkingProgress.error p).

(** [{ ...p, is_complete: true, error: err }] *)
Definition complete_with_error (err : value) (p : ThinkingProgress.t)
    : ThinkingProgress.t :=
  ThinkingProgress.mk (ThinkingProgress.task_id p) (ThinkingProgress.tool_calls p)
    true (ThinkingProgress.final_output p) err.

(** [{ ...old, status: 'completed', result: out }]; spreading [undefined]
    contributes no field. *)
Definition completed_call (old : option ToolCall.t) (out : value) : ToolCall.t :=
  match old with
  | Some c =>
      ToolCall.mk (ToolCall.id c) (ToolCall.tool_name c) (ToolCall.arguments c)
        completed out (ToolCall.error c)
  | None => ToolCall.mk VUndef VUndef VUndef completed out VUndef
  end.

(** [{ ...old, status: 'failed', error: err }] *)
Definition failed_call (old : option ToolCall.t) (err : value) : ToolCall.t :=
  match old with
  | Some c =>
      ToolCall.mk (ToolCall.id c) (ToolCall.tool_name c) (ToolCall.arguments c)
        failed (ToolCall.result c) err
  | None => ToolCall.mk VUndef VUndef VUndef failed VUndef err
  end.

(** The updater of the [progress_update_tool_action_started] cases (the same
    text in the sub-agent switch and in the main switch). *)
Definition started_updater `{JsRuntime} (event : AgentEvent.t) (toolCall : value)
    (prev : option ThinkingProgress.t) : outcome (option ThinkingProgress.t) :=
  let base := default (empty_progress (VStr (AgentEvent.task_id event))) prev in
  id ← get toolCall "id";
  fn ← get toolCall "function";
  name ← get fn "name";
  args ← get fn "arguments";
  mret (Some (with_tool_calls
    (<[to_key id := ToolCall.mk id name args started VUndef VUndef]>
       (ThinkingProgress.tool_calls base)) base)).

(** The updater of the [progress_update_tool_action_completed] cases. *)
Definition completed_updater `{JsRuntime} (resp toolCall : value)
    (prev : option ThinkingProgress.t) : outcome (option ThinkingProgress.t) :=
  match prev with
  | None => mret None
  | Some p =>
      id ← get toolCall "id";
      out ← get resp "output_data";
      mret (Some (with_tool_calls
        (<[to_key id :=
             completed_call (ThinkingProgress.tool_calls p !! to_key id) out]>
           (ThinkingProgress.tool_calls p)) p))
  end.

(** The updater of the [progress_update_tool_action_failed] cases. *)
Definition failed_updater `{JsRuntime} (event : AgentEvent.t) (toolCall : value)
    (prev : option ThinkingProgress.t) : outcome (option ThinkingProgress.t) :=
  match prev with
  | None => mret None
  | Some p =>
      id ← get toolCall "id";
      mret (Some (with_tool_calls
        (<[to_key id :=
             failed_call (ThinkingProgress.tool_calls p !! to_key id)
               (AgentEvent.error event)]>
           (ThinkingProgress.tool_calls p)) p))
  end.

(** [prev => (prev ? { ...prev, error: event.error } : null)] *)
Definition completion_failed_updater (event : AgentEvent.t)
    (prev : option ThinkingProgress.t) : outcome (option ThinkingProgress.t) :=
  mret (with_error (AgentEvent.error event) <$> prev).

Definition updateThinking (s : State)
    (updater : option ThinkingProgress.t -> outcome (option ThinkingProgress.t))
    : outcome State :=
  next ← updater (currentThinking s);
  mret (set_currentThinking next (set_thinkingRef next s)).

Definition updateSubAgentThinking (s : State) (taskId : string)
    (updater : option ThinkingProgress.t -> outcome (option ThinkingProgress.t))
    : outcome State :=
  let prev := subAgentProgress s in
  let current := prev !! taskId in
  next ← updater current;
  match next with
  | None => mret s
  | Some n =>
      let updated := <[taskId := n]> prev in
      mret (set_subAgentProgress updated (set_subAgentProgressRef updated s))
  end.

(** [event.data?.args?.[0]] *)
Definition first_arg (event : AgentEvent.t) : value :=
  opt_index0 (opt_get (AgentEvent.data event) "args").

(** The branch taken when [subAgentProgressRef.current[event.task_id]] is set.
    The [batch_progress] and [batch_completed] cases only declare constants
    and have no [break]: control falls through into the
    [progress_update_tool_action_started] case. *)
Definition handle_subagent `{JsRuntime} (s : State) (event : AgentEvent.t)
    : outcome State :=
  let taskId := AgentEvent.task_id event in
  match event_kind (AgentEvent.event_type event) with
  | batch_progress | batch_completed | progress_update_tool_action_started =>
      let toolCall := first_arg event in
      if truthy toolCall
      then updateSubAgentThinking s taskId (started_updater event toolCall)
      else mret s
  | progress_update_tool_action_completed =>
      let resp := opt_get (AgentEvent.data event) "result" in
      let toolCall := opt_get resp "tool_call" in
      if truthy toolCall
      then updateSubAgentThinking s taskId (completed_updater resp toolCall)
      else mret s
  | progress_update_tool_action_failed =>
      let toolCall := first_arg event in
      if truthy toolCall
      then updateSubAgentThinking s taskId (failed_updater event toolCall)
      else mret s
  | progress_update_completion_failed =>
      updateSubAgentThinking s taskId (completion_failed_updater event)
  | agent_output =>
      let finalData := AgentEvent.data event in
      s1 ← updateSubAgentThinking s taskId
              (fun prev => mret (complete_with_output finalData <$> prev));
      mret (processedTasks_add taskId s1)
  | run_cancelled =>
      s1 ← updateSubAgentThinking s taskId
              (fun prev =>
                 mret (complete_with_error (VStr "Task cancelled by user") <$> prev));
      mret (processedTasks_add taskId s1)
  | run_failed =>
      s1 ← updateSubAgentThinking s taskId
              (fun prev =>
                 mret (complete_with_error
                         (or_else (AgentEvent.error event)
                            (VStr "Agent failed to complete the task")) <$> prev));
      mret (processedTasks_add taskId s1)
  | run_steering_applied | run_steering_failed | unhandled => mret s
  end.

(** The [forEach] of the research case: an id for which [updated[id]] is
    falsy gets [{ task_id: id, tool_calls: {}, is_complete: false }].  The
    lookup is truthy for an entry and for an inherited name. *)
Definition register_task_ids `{JsRuntime} (taskIds : list value)
    (prev : gmap string ThinkingProgress.t) : gmap string ThinkingProgress.t :=
  foldl (fun updated id =>
           match updated !! to_key id with
           | Some _ => updated
           | None =>
               if inherited_name (to_key id) then updated
               else <[to_key id := empty_progress id]> updated
           end) prev taskIds.

(** [x === 'research'] *)
Definition is_research (x : value) : bool :=
  match x with
  | VStr s => String.eqb s "research"
  | _ => false
  end.

Definition assistant_message (clk : Clock) (content : value)
    (thinking : option ThinkingProgress.t) : Message.t :=
  Message.mk (VNum (inject_Z (Date_now clk))) (VStr "assistant") content
    (VNum (inject_Z (new_Date clk))) thinking.

(** [prev => [...prev.slice(0, -1), { ...last, thinking: finished }]] with
    [last = prev[prev.length - 1]]. *)
Definition attach_thinking (finished : ThinkingProgress.t)
    (prev : list Message.t) : list Message.t :=
  let last := default (Message.mk VUndef VUndef VUndef VUndef None) (last prev) in
  (removelast prev ++
    [Message.mk (Message.id last) (Message.role last) (Message.content last)
       (Message.timestamp last) (Some finished)])%list.

(** [snap && Object.keys(snap.tool_calls).length] *)
Definition has_tool_calls (snap : option ThinkingProgress.t) : bool :=
  match snap with
  | Some p => negb (Nat.eqb (size (ThinkingProgress.tool_calls p)) 0)
  | None => false
  end.

(** The part that the [run_cancelled] and [run_failed] cases of the main
    switch share; they differ in the message text and in the error stored in
    the snapshot. *)
Definition finish_with_error (s : State) (clk : Clock) (event : AgentEvent.t)
    (message err : value) : State :=
  let snap := thinkingRef s in
  let snapshotThinking :=
    if has_tool_calls snap then complete_with_error err <$> snap else None in
  let s := set_messages
             (fun prev => (prev ++ [assistant_message clk message snapshotThinking])%list) s in
  let s := set_currentThinking None s in
  let s := set_loading false s in
  let s := set_cancelling false s in
  let s := set_currentTaskId None s in
  let s := set_steering false s in
  let s := set_steerMode false s in
  let s := set_steeringStatus None s in
  let s := set_researchProgress VNull s in
  processedTasks_add (AgentEvent.task_id event) s.

(** The second [switch] of the main path. *)
Definition handle_main `{JsRuntime} (s : State) (clk : Clock) (event : AgentEvent.t)
    : outcome State :=
  let taskId := AgentEvent.task_id event in
  match event_kind (AgentEvent.event_type event) with
  | progress_update_tool_action_started =>
      let toolCall := first_arg event in
      if truthy toolCall
      then updateThinking s (started_updater event toolCall)
      else mret s
  | progress_update_tool_action_completed =>
      let resp := opt_get (AgentEvent.data event) "result" in
      let toolCall := opt_get resp "tool_call" in
      if truthy toolCall
      then
        s1 ← updateThinking s (completed_updater resp toolCall);
        if is_research (opt_get (opt_get (opt_get resp "tool_call") "function") "name")
        then
          output_data ← get resp "output_data";
          match output_data with
          | VArr taskIds =>
              let s2 := set_researchProgress (VNum 0) s1 in
              let updated := register_task_ids taskIds (subAgentProgress s2) in
              mret (set_subAgentProgress updated (set_subAgentProgressRef updated s2))
          | _ => mret s1
          end
        else mret s1
      else mret s
  | progress_update_tool_action_failed =>
      let toolCall := first_arg event in
      if truthy toolCall
      then updateThinking s (failed_updater event toolCall)
      else mret s
  | progress_update_completion_failed =>
      updateThinking s (completion_failed_updater event)
  | run_steering_applied =>
      let s := set_steeringStatus (Some applied) s in
      let s := set_steering false s in
      mret (setTimeout_clear_steeringStatus 2000 s)
  | run_steering_failed =>
      let s := set_steeringStatus (Some steering_failed) s in
      let s := set_steering false s in
      let s := set_steerMode false s in
      mret (setTimeout_clear_steeringStatus 3000 s)
  | agent_output =>
      if decide (taskId ∈ processedTasksRef s) then mret s
      else
        let data := AgentEvent.data event in
        let content :=
          if is_string data then data
          else nullish_coalesce (opt_get data "final_output") (JSON_stringify data) in
        let s1 := set_messages
                    (fun prev => (prev ++ [assistant_message clk content None])%list) s in
        let finished := complete_with_output data <$> thinkingRef s in
        let s2 := match finished with
                  | Some f => set_messages (attach_thinking f) s1
                  | None => s1
                  end in
        let s3 := set_currentThinking None s2 in
        let s4 := set_loading false s3 in
        let s5 := set_currentTaskId None s4 in
        let s6 := set_steering false s5 in
        let s7 := set_steerMode false s6 in
        let s8 := set_steeringStatus None s7 in
        let s9 := set_researchProgress VNull s8 in
        mret (processedTasks_add taskId s9)
  | run_cancelled =>
      if decide (taskId ∈ processedTasksRef s) then mret s
      else mret (finish_with_error s clk event (VStr "Task was cancelled.")
                   (VStr "Task cancelled by user"))
  | run_failed =>
      if decide (taskId ∈ processedTasksRef s) then mret s
      else mret (finish_with_error s clk event (VStr "Failed to get agent response.")
                   (or_else (AgentEvent.error event)
                      (VStr "Agent failed to complete the task")))
  | batch_progress | batch_completed | unhandled => mret s
  end.

(** The first [switch] of the main path: batch-level events. *)
Definition handle_batch `{JsRuntime} (s : State) (clk : Clock) (event : AgentEvent.t)
    : outcome State :=
  match event_kind (AgentEvent.event_type event) with
  | batch_progress =>
      let pct :=
        if is_number (AgentEvent.progress event) then AgentEvent.progress event
        else opt_get (AgentEvent.data event) "progress" in
      match pct with
      | VUndef => mret s
      | _ => mret (set_researchProgress pct s)
      end
  | batch_completed => mret (set_researchProgress (VNum 100) s)
  | _ => handle_main s clk event
  end.

(** The test [subAgentProgressRef.current[event.task_id]] is modelled by the
    entries of the registry: this is the handler for task ids that are no
    [inherited_name].  For such a name the test of the source is truthy
    whatever the registry holds, and the sub-agent switch runs on an
    inherited function, which [ThinkingProgress.t] does not represent. *)
Definition handleWSMessage `{JsRuntime} (s : State) (clk : Clock)
    (event : AgentEvent.t) : outcome State :=
  match subAgentProgressRef s !! AgentEvent.task_id event with
  | Some _ => handle_subagent s event
  | None => handle_batch s clk event
  end.

(** The handler run over a sequence of frames, each with its clock reads. *)
Fixpoint run_events `{JsRuntime} (s : State) (frames : list (Clock * AgentEvent.t))
    : outcome State :=
  match frames with
  | [] => mret s
  | (clk, event) :: rest =>
      s' ← handleWSMessage s clk event;
      run_events s' rest
  end.

(** ** SubAgentCarousel.tsx *)

Inductive parse_error : Type := SyntaxError.

Module ParsedOutput.
(** [{ results?, findings? }]; a field that is absent is [None], so [{}] is
    [mk None None]. *)
Record t : Type := mk {
  results : option (list value);
  findings : option (list value)
}.
End ParsedOutput.

Definition as_array (v : value) : option (list value) :=
  match v with
  | VArr items => Some items
  | _ => None
  end.

(** [if (typeof parsed === 'string') parsed = JSON.parse(parsed)], with the
    [SyntaxError] of [JSON.parse] made explicit. *)
Definition parse_if_string `{JsRuntime} (parsed : value) : parse_error + value :=
  match parsed with
  | VStr s =>
      match JSON_parse s with
      | Some v => inr v
      | None => inl SyntaxError
      end
  | _ => inr parsed
  end.

(** The two conditional expressions that end [parseFinalOutput]. *)
Definition results_and_findings (parsed : value) : outcome ParsedOutput.t :=
  results ←
    (if isArray parsed then mret (as_array parsed)
     else if isArray (opt_get parsed "results")
          then r ← get parsed "results"; mret (as_array r)
          else mret None);
  findings ←
    (if isArray (opt_get parsed "findings")
     then f ← get parsed "findings"; mret (as_array f)
     else if isArray parsed then mret (as_array parsed)
          else mret None);
  mret (ParsedOutput.mk results findings).

Definition parseFinalOutput `{JsRuntime} (finalOutput : value)
    : outcome ParsedOutput.t :=
  if negb (truthy finalOutput) then mret (ParsedOutput.mk None None)
  else
    match parse_if_string finalOutput with
    | inl _ => mret (ParsedOutput.mk None None)
    | inr parsed =>
        if negb (isArray parsed) &&
           negb (match opt_get parsed "final_output" with VUndef => true | _ => false end)
        then
          inner ← get parsed "final_output";
          match parse_if_string inner with
          | inl _ => mret (ParsedOutput.mk None None)
          | inr parsed' => results_and_findings parsed'
          end
        else results_and_findings parsed
    end.

(** [progressMap[id]?.is_complete] *)
Definition task_is_complete `{JsRuntime}
    (progressMap : gmap string ThinkingProgress.t) (id : value) : bool :=
  match progressMap !! to_key id with
  | Some p => ThinkingProgress.is_complete p
  | None => false
  end.

Definition completed_count `{JsRuntime} (taskIds : list value)
    (progressMap : gmap string ThinkingProgress.t) : nat :=
  length (filter (fun id => task_is_complete progressMap id = true) taskIds).

(** [Math.round((completed / total) * 100)] on the two counts: the quotient
    and the product are doubles. *)
Definition percent_of (completed total : nat) : option Z :=
  Math_round_double
    (double_mul
       (double_div (double_of_Z (Z.of_nat completed)) (double_of_Z (Z.of_nat total)))
       (double_of_Z 100)).

(** [total ? Math.round((completed / total) * 100) : 0] *)
Definition computedPct `{JsRuntime} (taskIds : list value)
    (progressMap : gmap string ThinkingProgress.t) : option Z :=
  let total := length taskIds in
  let completed := completed_count taskIds progressMap in
  if Nat.eqb total 0 then Some 0%Z
  else percent_of completed total.

Module Carousel.
(** What the progress bar of the carousel is given; [pct = None] is [NaN]. *)
Record t : Type := mk {
  pct : option Z;
  isComplete : bool
}.
End Carousel.

(** The head of [SubAgentCarousel]; [None] is the [return null] for an empty
    [taskIds]. *)
Definition SubAgentCarousel `{JsRuntime} (taskIds : list value)
    (progressMap : gmap string ThinkingProgress.t) (progressPercent : value)
    : option Carousel.t :=
  match taskIds with
  | [] => None
  | _ =>
      let pct :=
        match progressPercent with
        | VUndef => computedPct taskIds progressMap
        | _ => Math_round progressPercent
        end in
      Some (Carousel.mk pct
              (match pct with Some z => Z.eqb z 100 | None => false end))
  end.

(** App.tsx hands the tracker down as [researchProgress ?? undefined]. *)
Definition progressPercent_of (s : State) : value :=
  nullish_coalesce (researchProgress s) VUndef.

(** The percentage the carousel of one research batch shows in state [s]. *)
Definition batch_percentage `{JsRuntime} (s : State) (taskIds : list value)
    : option Z :=
  c ← SubAgentCarousel taskIds (subAgentProgress s) (progressPercent_of s);
  Carousel.pct c.

(** ** Vocabulary of the specification *)

(** The terminal events of section 3: [agent_output], [run_cancelled],
    [run_failed]. *)
Definition is_terminal (k : EventKind) : bool :=
  match k with
  | agent_output | run_cancelled | run_failed => true
  | _ => false
  end.

(** The batch-level events of section 4.5. *)
Definition is_batch_event (k : EventKind) : bool :=
  match k with
  | batch_progress | batch_completed => true
  | _ => false
  end.

(** The status a tool-action case writes.  In the sub-agent switch the two
    batch cases fall through into the started case. *)
Definition named_status (subagent_scope : bool) (k : EventKind) : option Status :=
  match k with
  | progress_update_tool_action_started => Some started
  | progress_update_tool_action_completed => Some completed
  | progress_update_tool_action_failed => Some failed
  | batch_progress | batch_completed =>
      if subagent_scope then Some started else None
  | _ => None
  end.

(** The tool call an event carries, where its case looks for it. *)
Definition tool_call_of (event : AgentEvent.t) : value :=
  match event_kind (AgentEvent.event_type event) with
  | progress_update_tool_action_completed =>
      opt_get (opt_get (AgentEvent.data event) "result") "tool_call"
  | _ => first_arg event
  end.

(** The key of [tool_calls] that the event's tool call addresses. *)
Definition tool_call_key `{JsRuntime} (event : AgentEvent.t) : string :=
  to_key (prop (tool_call_of event) "id").

(** The status recorded under [key] in a Task Progress, if any. *)
Definition status_in (progress : option ThinkingProgress.t) (key : string)
    : option Status :=
  p ← progress;
  ToolCall.status <$> ThinkingProgress.tool_calls p !! key.

(** The entry that a completed or failed event leaves under an id that no
    started event introduced. *)
Definition orphan_call (event : AgentEvent.t) : ToolCall.t :=
  match event_kind (AgentEvent.event_type event) with
  | progress_update_tool_action_completed =>
      ToolCall.mk VUndef VUndef VUndef completed
        (prop (opt_get (AgentEvent.data event) "result") "output_data") VUndef
  | _ => ToolCall.mk VUndef VUndef VUndef failed VUndef (AgentEvent.error event)
  end.

(** [z] is the integer nearest to [q], a tie going to the larger one. *)
Definition nearest_integer (q : Q) (z : Z) : Prop :=
  (q - (1 # 2) < inject_Z z)%Q /\ (inject_Z z <= q + (1 # 2))%Q.

(** [z] is an integer nearest to [q]; at a tie, either neighbour. *)
Definition within_half (q : Q) (z : Z) : Prop :=
  (q - (1 # 2) <= inject_Z z)%Q /\ (inject_Z z <= q + (1 # 2))%Q.

(** [100 * completed / total], exactly. *)
Definition exact_percent (completed total : nat) : Q :=
  (100 * inject_Z (Z.of_nat completed) / inject_Z (Z.of_nat total))%Q.

(** [percent_of] gives an integer within one half of the exact percentage,
    for every total from 1 to [bound] and every count up to the total. *)
Definition percent_checked (bound : nat) : bool :=
  forallb
    (fun total =>
       forallb
         (fun completed =>
            match percent_of completed total with
            | Some z =>
                Qle_bool (exact_percent completed total - (1 # 2)) (inject_Z z)
                && Qle_bool (inject_Z z) (exact_percent completed total + (1 # 2))
            | None => false
            end)
         (seq 0 (S total)))
    (seq 1 bound).

(** Section 4.1 of the specification, in its words: [results] is the value
    itself if it is an array, else [value.results] if that is an array; 
    [findings] is [value.findings] if that is an array, else the value itself
    if it is an array. *)
Definition spec_interpret (v : value) : ParsedOutput.t :=
  ParsedOutput.mk
    (match v with
     | VArr items => Some items
     | _ => as_array (opt_get v "results")
     end)
    (match as_array (opt_get v "findings") with
     | Some items => Some items
     | None => as_array v
     end).

(** Section 4.1: a string is JSON-decoded, anything else is taken as it is. *)
Definition spec_decode `{JsRuntime} (raw : value) : option value :=
  match raw with
  | VStr s => JSON_parse s
  | _ => Some raw
  end.

(** The registry cell and its [useRef] mirror agree. *)
Definition registry_in_sync (s : State) : Prop :=
  subAgentProgressRef s = subAgentProgress s.

(** A main-task [progress_update_tool_action_completed] event of the
    [research] tool whose [output_data] is the array [taskIds]. *)
Definition research_completion (s : State) (event : AgentEvent.t)
    (taskIds : list value) : Prop :=
  subAgentProgressRef s !! AgentEvent.task_id event = None /\
  event_kind (AgentEvent.event_type event) = progress_update_tool_action_completed /\
  is_research
    (opt_get
       (opt_get (opt_get (opt_get (AgentEvent.data event) "result") "tool_call")
          "function") "name") = true /\
  opt_get (opt_get (AgentEvent.data event) "result") "output_data" = VArr taskIds.

(** A state that differs from [s] in the registry cell, its mirror and the set
    of processed tasks only. *)
Definition registry_update (s : State) (m r : gmap string ThinkingProgress.t)
    (pr : gset string) : State :=
  mkState (messages s) (currentThinking s) (loading s) (currentTaskId s)
    (cancelling s) (steering s) (steerMode s) (steeringStatus s)
    m (researchProgress s) (pendingTimeouts s) (thinkingRef s) pr r.

(** The updater a case of the sub-agent switch hands to
    [updateSubAgentThinking]; a case that breaks out before the call is the
    updater that returns [null], for which [updateSubAgentThinking] keeps the
    state. *)
Definition subagent_reducer `{JsRuntime} (event : AgentEvent.t)
    (prev : option ThinkingProgress.t) : outcome (option ThinkingProgress.t) :=
  match event_kind (AgentEvent.event_type event) with
  | batch_progress | batch_completed | progress_update_tool_action_started =>
      if truthy (first_arg event)
      then started_updater event (first_arg event) prev
      else mret None
  | progress_update_tool_action_completed =>
      let resp := opt_get (AgentEvent.data event) "result" in
      if truthy (opt_get resp "tool_call")
      then completed_updater resp (opt_get resp "tool_call") prev
      else mret None
  | progress_update_tool_action_failed =>
      if truthy (first_arg event)
      then failed_updater event (first_arg event) prev
      else mret None
  | progress_update_completion_failed => completion_failed_updater event prev
  | agent_output => mret (complete_with_output (AgentEvent.data event) <$> prev)
  | run_cancelled =>
      mret (complete_with_error (VStr "Task cancelled by user") <$> prev)
  | run_failed =>
      mret (complete_with_error
              (or_else (AgentEvent.error event)
                 (VStr "Agent failed to complete the task")) <$> prev)
  | run_steering_applied | run_steering_failed | unhandled => mret None
  end.

(** The live Task Progress of the main task, when there is one, is the one
    that [thinkingRef] holds. *)
Definition thinking_mirrored (s : State) : Prop :=
  currentThinking s = None \/ thinkingRef s = currentThinking s.

(** ** Sample inputs *)

(** A runtime for the sample inputs below, all of whose keys are strings. *)
Definition sample_runtime : JsRuntime :=
  Build_JsRuntime
    (fun s => if String.eqb s "[]" then Some (VArr []) else None)
    (fun v => VStr "null")
    (fun _ => "[object Object]") (fun _ => None).

Definition clock0 : Clock := Build_Clock 0 0.

Definition tool_call_value (id name : string) : value :=
  VObj [("id", VStr id);
        ("function", VObj [("name", VStr name); ("arguments", VStr "{}")])].

Definition started_event (task id name : string) : AgentEvent.t :=
  AgentEvent.mk task "progress_update_tool_action_started"
    (VObj [("args", VArr [tool_call_value id name])]) VUndef VUndef.

Definition completed_event (task id name : string) (output : value)
    : AgentEvent.t :=
  AgentEvent.mk task "progress_update_tool_action_completed"
    (VObj [("result", VObj [("tool_call", tool_call_value id name);
                            ("output_data", output)])]) VUndef VUndef.

Definition failed_event (task id name err : string) : AgentEvent.t :=
  AgentEvent.mk task "progress_update_tool_action_failed"
    (VObj [("args", VArr [tool_call_value id name])]) (VStr err) VUndef.

Definition plain_event (task type : string) (data : value) : AgentEvent.t :=
  AgentEvent.mk task type data VUndef VUndef.

Definition batch_progress_event (task : string) (p : Q) : AgentEvent.t :=
  AgentEvent.mk task "batch_progress" VUndef VUndef (VNum p).

(** The main task ["main"] spawns the sub-agent tasks ["a"], ["b"], ["c"]. *)
Definition research_event : AgentEvent.t :=
  completed_event "main" "r1" "research" (VArr [VStr "a"; VStr "b"; VStr "c"]).

Definition frames (events : list AgentEvent.t) : list (Clock * AgentEvent.t) :=
  map (fun e => (clock0, e)) events.

(** The state after the research call of ["main"] started and completed. *)
Definition spawned_state : State :=
  match @run_events sample_runtime initial_state
          (frames [started_event "main" "r1" "research"; research_event]) with
  | Ok s => s
  | Throw _ => initial_state
  end.

(** ... and after sub-agent ["a"] delivered its output ["x"]. *)
Definition a_done_state : State :=
  match @handleWSMessage sample_runtime spawned_state clock0
          (plain_event "a" "agent_output" (VStr "x")) with
  | Ok s => s
  | Throw _ => initial_state
  end.


(** The state after a search call ["s1"] of ["main"] started. *)
Definition search_started_state : State :=
  match @handleWSMessage sample_runtime initial_state clock0
          (started_event "main" "s1" "search") with
  | Ok s => s
  | Throw _ => initial_state
  end.

(** ... and after that call completed. *)
Definition search_completed_state : State :=
  match @handleWSMessage sample_runtime search_started_state clock0
          (completed_event "main" "s1" "search" (VStr "out")) with
  | Ok s => s
  | Throw _ => initial_state
  end.


(** The state after a first task ["main1"] ran a search call and delivered
    its answer. *)
Definition first_task_done_state : State :=
  match @run_events sample_runtime initial_state
          (frames [started_event "main1" "s1" "search";
                   completed_event "main1" "s1" "search" (VStr "out");
                   plain_event "main1" "agent_output" (VStr "done")]) with
  | Ok s => s
  | Throw _ => initial_state
  end.

(** ... and after sub-agent ["b"] delivered its output as well: two of the
    three sub-agents are complete, and no batch event was received. *)
Definition two_done_state : State :=
  match @handleWSMessage sample_runtime a_done_state clock0
          (plain_event "b" "agent_output" (VStr "y")) with
  | Ok s => s
  | Throw _ => initial_state
  end.

(** The ids ["t1"], ..., ["tn"]. *)
Definition numbered_ids (n : nat) : list string :=
  map (fun i : nat => "t" +:+ pretty i) (seq 1 n).

(** A research call of ["main"] spawns forty sub-agents, twenty-three of
    them deliver their output, and ["main"] delivers its answer. *)
Definition forty_batch_events : list AgentEvent.t :=
  ([started_event "main" "r1" "research";
    completed_event "main" "r1" "research" (VArr (VStr <$> numbered_ids 40))]
   ++ map (fun id => plain_event id "agent_output" (VStr "x")) (numbered_ids 23)
   ++ [plain_event "main" "agent_output" (VStr "done")])%list.

Definition forty_batch_state : State :=
  match @run_events sample_runtime initial_state (frames forty_batch_events) with
  | Ok s => s
  | Throw _ => initial_state
  end.


(** ** Vocabulary for the further properties *)



(** ** SubAgentCarousel.tsx: [DotProgressBar] *)

Definition ROWS : Z := 4.
Definition DOT_SIZE : Z := 3.
Definition GAP : Z := 2.

(** [updateDots]: the number of columns for a container of the given
    [clientWidth] ([None] when the ref is not attached: 300 is taken). *)
Definition updateDots (clientWidth : option Z) : Z :=
  let width := default 300%Z clientWidth in
  let colWidth := (DOT_SIZE + GAP)%Z in
  Z.max 10 (Qfloor (inject_Z (width + GAP) / inject_Z colWidth)).

(** [Math.round((percentage / 100) * totalDots)] *)
Definition target_dots (percentage totalDots : Z) : Z :=
  round_number ((inject_Z percentage / 100) * inject_Z totalDots).

(** The updater that the interval passes to [setFilled]. *)
Definition tick (target prev : Z) : Z :=
  if Z.eqb prev target then prev
  else
    let diff := (target - prev)%Z in
    let step :=
      (Z.sgn diff * Z.max 1 (Qceiling (inject_Z (Z.abs diff) / 5)))%Z in
    let next := (prev + step)%Z in
    if Z.ltb 0 diff then Z.min next target else Z.max next target.

(** ** SubAgentCarousel.tsx: the aggregated sources *)






Section AggregatedSources.
Context `{JsRuntime}.
(** [Object.values] of a [tool_calls] object: its entries in the order in
    which JavaScript enumerates them. *)
Variable Object_values : gmap string ToolCall.t -> list ToolCall.t.





End AggregatedSources.

(** ** SubAgentCarousel.tsx: [AggregatedSourcesBar] *)

Section Hosts.
(** [new URL(url).hostname]; [None] stands for the [TypeError] of an invalid
    URL. *)
Variable URL_hostname : value -> option string.

(** The [try] body of the loop: [new URL(item.url).hostname], where reading
    [item.url] of [null] or [undefined] raises as well. *)
Definition host_of (item : value) : option string :=
  if nullish item then None else URL_hostname (prop item "url").

(** The loop that collects up to three distinct hostnames. *)
Fixpoint uniqueHosts_from (uniqueHosts : list string) (results : list value)
    : list string :=
  match results with
  | [] => uniqueHosts
  | item :: rest =>
      let uniqueHosts :=
        match host_of item with
        | Some host =>
            if bool_decide (host ∈ uniqueHosts) then uniqueHosts
            else (uniqueHosts ++ [host])%list
        | None => uniqueHosts
        end in
      if (3 <=? length uniqueHosts)%nat then uniqueHosts
      else uniqueHosts_from uniqueHosts rest
  end.

(** What [AggregatedSourcesBar] shows: [None] is [return null], otherwise the
    hosts of the favicons and the source count. *)
Definition AggregatedSourcesBar (results : list value) : option (list string * nat) :=
  match results with
  | [] => None
  | _ => Some (uniqueHosts_from [] results, length results)
  end.

End Hosts.

(** ** ToolResult.tsx *)

(** [try { parsed = JSON.parse(parsed) } catch { }] for a string, the catch
    keeping the string. *)
Definition parse_or_keep `{JsRuntime} (parsed : value) : value :=
  match parse_if_string parsed with
  | inl _ => parsed
  | inr v => v
  end.

(** The search branch of [ToolResultDisplay] up to [resultsArr]; [None] is
    [null], for which the component goes on to the fallback rendering. *)
Definition search_resultsArr `{JsRuntime} (result : value)
    : outcome (option (list value)) :=
  let parsed := parse_or_keep result in
  parsed ←
    (if negb (isArray parsed) &&
        negb (match opt_get parsed "final_output" with VUndef => true | _ => false end)
     then inner ← get parsed "final_output"; mret (parse_or_keep inner)
     else mret parsed);
  if isArray parsed then mret (as_array parsed)
  else if isArray (opt_get parsed "results")
       then r ← get parsed "results"; mret (as_array r)
       else mret None.




Section ToolArguments.
Context `{JsRuntime}.
Variable URL_hostname : value -> option string.
(** [JSON.stringify(v)], without indentation *)
Variable JSON_stringify_compact : value -> value.


End ToolArguments.

(** ** ThinkingDropdown.tsx: the header of a search call *)




(** ** SubAgentCarousel.tsx: what the aggregation loop ingests *)

Section IngestedItems.
Context `{JsRuntime}.
Variable Object_values : gmap string ToolCall.t -> list ToolCall.t.





End IngestedItems.


(** * Properties *)

Ltac unfold_outcome :=
  unfold mbind, mret, outcome_bind, outcome_ret in *.

Ltac inv_Ok :=
  repeat match goal with
         | H : Ok _ = Ok _ |- _ => injection H as H; try subst
         | H : Throw _ = Ok _ |- _ => discriminate H
         | H : Ok _ = Throw _ |- _ => discriminate H
         end.

Section Reconciler.
Context `{JsRuntime}.

(** ** The two state-update wrappers *)

Lemma updateThinking_Ok s updater s' :
  updateThinking s updater = Ok s' ->
  exists next,
    updater (currentThinking s) = Ok next /\
    s' = set_currentThinking next (set_thinkingRef next s).
Proof.
  unfold updateThinking. unfold_outcome.
  destruct (updater (currentThinking s)) as [next|]; intros Hs; inv_Ok.
  now exists next.
Qed.

Lemma updateSubAgentThinking_Ok s taskId updater s' :
  updateSubAgentThinking s taskId updater = Ok s' ->
  exists next,
    updater (subAgentProgress s !! taskId) = Ok next /\
    s' = match next with
         | None => s
         | Some n =>
             set_subAgentProgress (<[taskId := n]> (subAgentProgress s))
               (set_subAgentProgressRef (<[taskId := n]> (subAgentProgress s)) s)
         end.
Proof.
  unfold updateSubAgentThinking. unfold_outcome.
  destruct (updater (subAgentProgress s !! taskId)) as [next|]; intros Hs; inv_Ok.
  exists next. split; [reflexivity|]. destruct next; now inv_Ok.
Qed.

Lemma registry_update_id s :
  registry_update s (subAgentProgress s) (subAgentProgressRef s)
    (processedTasksRef s) = s.
Proof. now destruct s. Qed.

(** What a run of the sub-agent switch can do to the state. *)
Lemma handle_subagent_shape s event s' :
  handle_subagent s event = Ok s' ->
  exists m r pr,
    s' = registry_update s m r pr /\
    ((m = subAgentProgress s /\ r = subAgentProgressRef s) \/
     (exists n, m = <[AgentEvent.task_id event := n]> (subAgentProgress s) /\ r = m)) /\
    (pr = processedTasksRef s \/
     (is_terminal (event_kind (AgentEvent.event_type event)) = true /\
      pr = {[AgentEvent.task_id event]} ∪ processedTasksRef s)).
Proof.
  unfold handle_subagent.
  assert (Hupd : forall u s1,
    updateSubAgentThinking s (AgentEvent.task_id event) u = Ok s1 ->
    exists m r, s1 = registry_update s m r (processedTasksRef s) /\
      ((m = subAgentProgress s /\ r = subAgentProgressRef s) \/
       (exists n, m = <[AgentEvent.task_id event := n]> (subAgentProgress s) /\ r = m))).
  { intros u s1 Hu. apply updateSubAgentThinking_Ok in Hu as (next & _ & ->).
    destruct next as [n|].
    - exists (<[AgentEvent.task_id event := n]> (subAgentProgress s)),
             (<[AgentEvent.task_id event := n]> (subAgentProgress s)).
      split; [reflexivity|]. right. now exists n.
    - exists (subAgentProgress s), (subAgentProgressRef s).
      split; [now rewrite registry_update_id | now left]. }
  assert (Hnop : exists m r pr,
    s = registry_update s m r pr /\
    ((m = subAgentProgress s /\ r = subAgentProgressRef s) \/
     (exists n, m = <[AgentEvent.task_id event := n]> (subAgentProgress s) /\ r = m)) /\
    (pr = processedTasksRef s \/
     (is_terminal (event_kind (AgentEvent.event_type event)) = true /\
      pr = {[AgentEvent.task_id event]} ∪ processedTasksRef s))).
  { exists (subAgentProgress s), (subAgentProgressRef s), (processedTasksRef s).
    rewrite registry_update_id. auto. }
  assert (Hplain : forall u,
    updateSubAgentThinking s (AgentEvent.task_id event) u = Ok s' ->
    exists m r pr,
      s' = registry_update s m r pr /\
      ((m = subAgentProgress s /\ r = subAgentProgressRef s) \/
       (exists n, m = <[AgentEvent.task_id event := n]> (subAgentProgress s) /\ r = m)) /\
      (pr = processedTasksRef s \/
       (is_terminal (event_kind (AgentEvent.event_type event)) = true /\
        pr = {[AgentEvent.task_id event]} ∪ processedTasksRef s))).
  { intros u Hu. destruct (Hupd _ _ Hu) as (m & r & -> & Hm).
    exists m, r, (processedTasksRef s). auto. }
  destruct (event_kind (AgentEvent.event_type event)) eqn:Hk;
    try destruct (truthy _); intros Hs;
    try (eapply Hplain; exact Hs);
    try (unfold_outcome; inv_Ok; exact Hnop);
    unfold_outcome;
    (destruct (updateSubAgentThinking s _ _) as [s1|] eqn:Hu; [|discriminate];
     destruct (Hupd _ _ Hu) as (m & r & -> & Hm); inv_Ok;
     exists m, r, ({[AgentEvent.task_id event]} ∪ processedTasksRef s);
     split; [reflexivity | split; [exact Hm | right; split; reflexivity]]).
Qed.

Lemma subagent_event_frame_messages s clk event s' :
  is_Some (subAgentProgressRef s !! AgentEvent.task_id event) ->
  handleWSMessage s clk event = Ok s' ->
  messages s' = messages s /\ currentThinking s' = currentThinking s.
Proof.
  intros [p Hp] Hs. unfold handleWSMessage in Hs. rewrite Hp in Hs.
  apply handle_subagent_shape in Hs as (m & r & pr & -> & _). now split.
Qed.

(** C5.  An event whose task id is a key of the sub-agent registry changes at
    most the registry entry of that task (and the set of processed tasks, for a
    terminal event): the main Task Progress, the transcript, the batch
    progress and every other cell stay as they were, whatever its event type. *)
Theorem subagent_event_frame s clk event s' :
  is_Some (subAgentProgressRef s !! AgentEvent.task_id event) ->
  handleWSMessage s clk event = Ok s' ->
  currentThinking s' = currentThinking s /\
  thinkingRef s' = thinkingRef s /\
  messages s' = messages s /\
  researchProgress s' = researchProgress s /\
  (forall k, k <> AgentEvent.task_id event ->
     subAgentProgress s' !! k = subAgentProgress s !! k) /\
  (processedTasksRef s' = processedTasksRef s \/
   (is_terminal (event_kind (AgentEvent.event_type event)) = true /\
    processedTasksRef s' = {[AgentEvent.task_id event]} ∪ processedTasksRef s)) /\
  (loading s', currentTaskId s', cancelling s', steering s', steerMode s',
   steeringStatus s', pendingTimeouts s') =
  (loading s, currentTaskId s, cancelling s, steering s, steerMode s,
   steeringStatus s, pendingTimeouts s).
Proof.
  intros [p Hp] Hs. unfold handleWSMessage in Hs. rewrite Hp in Hs.
  apply handle_subagent_shape in Hs as (m & r & pr & -> & Hm & Hpr).
  repeat split; try reflexivity; try exact Hpr.
  intros k Hk. simpl.
  destruct Hm as [[-> _] | (n & -> & _)]; [reflexivity|].
  now rewrite lookup_insert_ne.
Qed.

(** ** Batch events addressed to a registered sub-agent task *)

(** In the sub-agent switch a batch event does what a started event does: with
    no truthy [event.data?.args?.[0]] it breaks out at the guard. *)
Lemma subagent_batch_without_tool_call s event :
  is_batch_event (event_kind (AgentEvent.event_type event)) = true ->
  truthy (first_arg event) = false ->
  handle_subagent s event = Ok s.
Proof.
  unfold handle_subagent.
  destruct (event_kind (AgentEvent.event_type event)); try discriminate;
    intros _ ->; reflexivity.
Qed.

Lemma first_arg_without_args event :
  opt_get (AgentEvent.data event) "args" = VUndef -> first_arg event = VUndef.
Proof. unfold first_arg. now intros ->. Qed.

(** C10.  A [batch_progress] or [batch_completed] event whose task id is a key
    of the sub-agent registry and whose data has no [args] leaves the whole
    state as it is; the batch progress tracker in particular is not updated. *)
Theorem subagent_batch_event_ignored s clk event :
  is_Some (subAgentProgressRef s !! AgentEvent.task_id event) ->
  is_batch_event (event_kind (AgentEvent.event_type event)) = true ->
  opt_get (AgentEvent.data event) "args" = VUndef ->
  handleWSMessage s clk event = Ok s.
Proof.
  intros [p Hp] Hk Hargs. unfold handleWSMessage. rewrite Hp.
  apply subagent_batch_without_tool_call; [exact Hk|].
  now rewrite first_arg_without_args.
Qed.

(** ** Cancellation of the main task *)

Lemma has_tool_calls_false snap :
  (forall p, snap = Some p -> ThinkingProgress.tool_calls p = ∅) ->
  has_tool_calls snap = false.
Proof.
  intros Hsnap. destruct snap as [p|]; [|reflexivity]. simpl.
  rewrite (Hsnap p eq_refl), map_size_empty. reflexivity.
Qed.

Lemma has_tool_calls_true p :
  ThinkingProgress.tool_calls p <> ∅ -> has_tool_calls (Some p) = true.
Proof.
  intros Hne. simpl. destruct (Nat.eqb_spec (size (ThinkingProgress.tool_calls p)) 0) as [Hz|];
    [|reflexivity].
  now apply map_size_empty_iff in Hz.
Qed.

(** A [run_cancelled] event on the main path, not yet processed: when the
    progress in [thinkingRef] has no tool call, the transcript gets the bare
    message "Task was cancelled." without a snapshot; when it has at least
    one, the message carries that progress finalized with
    [is_complete = true] and [error = "Task cancelled by user"]. *)
Lemma run_cancelled_main_message s clk event :
  subAgentProgressRef s !! AgentEvent.task_id event = None ->
  event_kind (AgentEvent.event_type event) = run_cancelled ->
  AgentEvent.task_id event ∉ processedTasksRef s ->
  exists s',
    handleWSMessage s clk event = Ok s' /\
    ((forall p, thinkingRef s = Some p -> ThinkingProgress.tool_calls p = ∅) ->
     messages s' =
       (messages s ++
          [Message.mk (VNum (inject_Z (Date_now clk))) (VStr "assistant")
             (VStr "Task was cancelled.") (VNum (inject_Z (new_Date clk)))
             None])%list) /\
    (forall p,
       thinkingRef s = Some p -> ThinkingProgress.tool_calls p <> ∅ ->
       messages s' =
         (messages s ++
            [Message.mk (VNum (inject_Z (Date_now clk))) (VStr "assistant")
               (VStr "Task was cancelled.") (VNum (inject_Z (new_Date clk)))
               (Some (ThinkingProgress.mk (ThinkingProgress.task_id p)
                        (ThinkingProgress.tool_calls p) true
                        (ThinkingProgress.final_output p)
                        (VStr "Task cancelled by user")))])%list).
Proof.
  intros Hmain Hk Hnew. unfold handleWSMessage, handle_batch, handle_main.
  rewrite Hmain, Hk. rewrite decide_False by exact Hnew.
  eexists. split; [reflexivity|]. split.
  - intros Hempty. simpl. now rewrite has_tool_calls_false.
  - intros p Hp Hne. simpl. rewrite Hp, has_tool_calls_true by exact Hne.
    reflexivity.
Qed.

(** ** The payload parser *)

Lemma results_and_findings_spec parsed :
  results_and_findings parsed = Ok (spec_interpret parsed).
Proof.
  unfold results_and_findings, spec_interpret, get, opt_get. unfold_outcome.
  destruct parsed as [| | b | q | str | items | fields]; simpl; try reflexivity.
  destruct (assoc "results" fields) as [| | | | | rs |],
           (assoc "findings" fields) as [| | | | | fs |]; reflexivity.
Qed.

Lemma parseFinalOutput_total finalOutput :
  exists r, parseFinalOutput finalOutput = Ok r.
Proof.
  unfold parseFinalOutput.
  destruct (negb (truthy finalOutput)); [eexists; reflexivity|].
  destruct (parse_if_string finalOutput) as [|parsed]; [eexists; reflexivity|].
  destruct (negb (isArray parsed) && _) eqn:Hwrap.
  - unfold get. destruct (nullish parsed) eqn:Hnull.
    + destruct parsed; discriminate.
    + unfold_outcome.
      destruct (parse_if_string (prop parsed "final_output")) as [|parsed'];
        [eexists; reflexivity|].
      rewrite results_and_findings_spec. eexists; reflexivity.
  - rewrite results_and_findings_spec. eexists; reflexivity.
Qed.

(** The wrapper test of [parseFinalOutput]: not an array, and a
    [final_output] that is not [undefined]. *)
Lemma wrapper_unwrapped raw parsed inner :
  truthy raw = true ->
  spec_decode raw = Some parsed ->
  isArray parsed = false ->
  opt_get parsed "final_output" = inner ->
  inner <> VUndef ->
  parseFinalOutput raw =
    Ok (match spec_decode inner with
        | Some v => spec_interpret v
        | None => ParsedOutput.mk None None
        end).
Proof.
  intros Htruthy Hdec Harr Hinner Hdef. unfold parseFinalOutput.
  rewrite Htruthy. simpl.
  assert (Hparse : parse_if_string raw = inr parsed).
  { unfold parse_if_string, spec_decode in *.
    destruct raw; try (now inv_Ok; congruence); try congruence.
    now rewrite Hdec. }
  rewrite Hparse, Harr. simpl.
  assert (Hnn : nullish parsed = false).
  { unfold opt_get in Hinner. destruct (nullish parsed); congruence. }
  assert (Hget : get parsed "final_output" = Ok inner).
  { unfold get, opt_get in *. now rewrite Hnn in *; subst. }
  rewrite Hinner.
  destruct inner as [| | b | q | str | items | fields]; try congruence;
    rewrite Hget; unfold_outcome; simpl;
    try (now rewrite results_and_findings_spec).
  destruct (JSON_parse str); [now rewrite results_and_findings_spec | reflexivity].
Qed.

(** C8.  The payload parser returns a [{results?, findings?}] value on every
    input and never throws; a string that fails to decode gives [{}]; and a
    value that is not an array and has a [final_output] is replaced by that
    [final_output], itself decoded when it is a string, once, before
    [results] and [findings] are read off. *)
Theorem parseFinalOutput_never_throws :
  (forall finalOutput, exists r, parseFinalOutput finalOutput = Ok r) /\
  parseFinalOutput VNull = Ok (ParsedOutput.mk None None) /\
  parseFinalOutput VUndef = Ok (ParsedOutput.mk None None) /\
  (forall raw, truthy raw = false ->
     parseFinalOutput raw = Ok (ParsedOutput.mk None None)) /\
  (forall str, JSON_parse str = None ->
     parseFinalOutput (VStr str) = Ok (ParsedOutput.mk None None)) /\
  (forall raw parsed inner,
     truthy raw = true ->
     spec_decode raw = Some parsed ->
     isArray parsed = false ->
     opt_get parsed "final_output" = inner ->
     inner <> VUndef ->
     parseFinalOutput raw =
       Ok (match spec_decode inner with
           | Some v => spec_interpret v
           | None => ParsedOutput.mk None None
           end)) /\
  (forall raw parsed,
     truthy raw = true ->
     spec_decode raw = Some parsed ->
     (isArray parsed = true \/ opt_get parsed "final_output" = VUndef) ->
     parseFinalOutput raw = Ok (spec_interpret parsed)).
Proof.
  split; [exact parseFinalOutput_total|].
  split; [reflexivity|]. split; [reflexivity|]. split; [|split; [|split]].
  - intros raw Hfalsy. unfold parseFinalOutput. now rewrite Hfalsy.
  - intros str Hfail. unfold parseFinalOutput. simpl.
    destruct (negb (negb (str =? ""))); [reflexivity|]. now rewrite Hfail.
  - exact wrapper_unwrapped.
  - intros raw parsed Htruthy Hdec Hcase. unfold parseFinalOutput.
    rewrite Htruthy. simpl.
    assert (Hparse : parse_if_string raw = inr parsed).
    { unfold parse_if_string, spec_decode in *.
      destruct raw; try (now inv_Ok; congruence); try congruence.
      now rewrite Hdec. }
    rewrite Hparse.
    destruct Hcase as [-> | ->]; simpl; rewrite ?andb_false_r;
      apply results_and_findings_spec.
Qed.

(** ** Batch completion percentage *)

Lemma round_number_nearest q : nearest_integer q (round_number q).
Proof.
  unfold nearest_integer, round_number.
  pose proof (Qfloor_le (q + (1 # 2))) as Hle.
  pose proof (Qlt_floor (q + (1 # 2))) as Hlt.
  rewrite inject_Z_plus in Hlt. change (inject_Z 1) with 1%Q in Hlt.
  split; lra.
Qed.

Lemma task_is_complete_true (progressMap : gmap string ThinkingProgress.t) id :
  task_is_complete progressMap id = true <->
  exists p, progressMap !! to_key id = Some p /\ ThinkingProgress.is_complete p = true.
Proof.
  unfold task_is_complete. destruct (progressMap !! to_key id) as [p|].
  - split; [intros Hc; now exists p | intros (p' & Hp' & Hc); congruence].
  - split; [discriminate | intros (p' & Hp' & _); discriminate].
Qed.

Lemma nearest_integer_within_half q z : nearest_integer q z -> within_half q z.
Proof. unfold nearest_integer, within_half. intros [Hlo Hhi]. split; lra. Qed.

Lemma completed_count_le taskIds (progressMap : gmap string ThinkingProgress.t) :
  (completed_count taskIds progressMap <= length taskIds)%nat.
Proof. unfold completed_count. apply length_filter. Qed.

Lemma percent_checked_100 : percent_checked 100 = true.
Proof. vm_compute. reflexivity. Qed.

Lemma percent_of_within_half completed total :
  (completed <= total)%nat -> (1 <= total <= 100)%nat ->
  exists z,
    percent_of completed total = Some z /\
    within_half (exact_percent completed total) z.
Proof.
  intros Hc Ht. pose proof percent_checked_100 as Hall.
  unfold percent_checked in Hall.
  rewrite forallb_forall in Hall.
  specialize (Hall total ltac:(apply in_seq; lia)).
  rewrite forallb_forall in Hall.
  specialize (Hall completed ltac:(apply in_seq; lia)).
  destruct (percent_of completed total) as [z|]; [|discriminate].
  exists z. split; [reflexivity|].
  apply andb_prop in Hall as [Hlo Hhi].
  apply Qle_bool_iff in Hlo, Hhi. split; assumption.
Qed.

Lemma batch_percentage_tracked s taskIds q :
  taskIds <> [] -> researchProgress s = VNum q ->
  batch_percentage s taskIds = Some (round_number q).
Proof.
  intros Hne Hq. unfold batch_percentage, progressPercent_of. rewrite Hq.
  destruct taskIds; [congruence | reflexivity].
Qed.

Lemma batch_percentage_untracked s taskIds :
  taskIds <> [] -> researchProgress s = VNull ->
  batch_percentage s taskIds =
    percent_of (completed_count taskIds (subAgentProgress s)) (length taskIds).
Proof.
  intros Hne Hnull. unfold batch_percentage, progressPercent_of. rewrite Hnull.
  destruct taskIds as [|id rest]; [congruence|].
  cbn [SubAgentCarousel nullish_coalesce nullish mbind option_bind Carousel.pct].
  unfold computedPct. reflexivity.
Qed.

(** ** The main path *)

Lemma attach_thinking_snoc finished prev m :
  attach_thinking finished (prev ++ [m]) =
  (prev ++ [Message.mk (Message.id m) (Message.role m) (Message.content m)
              (Message.timestamp m) (Some finished)])%list.
Proof.
  unfold attach_thinking. now rewrite last_snoc, removelast_last.
Qed.

(** On the main path the transcript only grows at its end, and the registry
    changes only when a research call completes. *)
Lemma main_path_effects s clk event s' :
  subAgentProgressRef s !! AgentEvent.task_id event = None ->
  handleWSMessage s clk event = Ok s' ->
  (exists tail, messages s' = (messages s ++ tail)%list) /\
  (((forall taskIds, ~ research_completion s event taskIds) /\
    subAgentProgress s' = subAgentProgress s /\
    subAgentProgressRef s' = subAgentProgressRef s) \/
   (exists taskIds,
      research_completion s event taskIds /\
      subAgentProgress s' = register_task_ids taskIds (subAgentProgress s) /\
      subAgentProgressRef s' = subAgentProgress s' /\
      researchProgress s' = VNum 0)).
Proof.
  intros Hmain. unfold handleWSMessage, handle_batch, handle_main.
  rewrite Hmain.
  assert (Hupd : forall u s1, updateThinking s u = Ok s1 ->
    messages s1 = messages s /\ subAgentProgress s1 = subAgentProgress s /\
    subAgentProgressRef s1 = subAgentProgressRef s).
  { intros u s1 Hu. apply updateThinking_Ok in Hu as (next & _ & ->). auto. }
  assert (Hkeep : forall s1,
    (forall taskIds, ~ research_completion s event taskIds) ->
    messages s1 = messages s /\ subAgentProgress s1 = subAgentProgress s /\
    subAgentProgressRef s1 = subAgentProgressRef s ->
    (exists tail, messages s1 = (messages s ++ tail)%list) /\
    (((forall taskIds, ~ research_completion s event taskIds) /\
      subAgentProgress s1 = subAgentProgress s /\
      subAgentProgressRef s1 = subAgentProgressRef s) \/
     (exists taskIds,
        research_completion s event taskIds /\
        subAgentProgress s1 = register_task_ids taskIds (subAgentProgress s) /\
        subAgentProgressRef s1 = subAgentProgress s1 /\
        researchProgress s1 = VNum 0))).
  { intros s1 Hnot (Hm & Hr & Hf).
    split; [exists []; now rewrite app_nil_r | left; auto]. }
  assert (Hother :
    event_kind (AgentEvent.event_type event) <> progress_update_tool_action_completed ->
    forall taskIds, ~ research_completion s event taskIds).
  { intros Hne ids (_ & Hk' & _). contradiction. }
  destruct (event_kind (AgentEvent.event_type event)) eqn:Hk.
  - (* batch_progress *)
    destruct (if is_number _ then _ else _); unfold_outcome; intros Hs; inv_Ok;
      apply Hkeep; auto.
  - unfold_outcome; intros Hs; inv_Ok; apply Hkeep; auto.
  - destruct (truthy _); [|unfold_outcome]; intros Hs; inv_Ok;
      apply Hkeep; eauto.
  - (* tool_action_completed *)
    clear Hother.
    set (resp := opt_get (AgentEvent.data event) "result").
    destruct (truthy (opt_get resp "tool_call")) eqn:Htc.
    2:{ unfold_outcome; intros Hs; inv_Ok. apply Hkeep; [|auto].
        intros ids (_ & _ & Hname & _). fold resp in Hname.
        destruct (opt_get resp "tool_call") as [| | [] | q | str | |];
          try discriminate Htc; try discriminate Hname. }
    unfold_outcome.
    destruct (updateThinking s _) as [s1|] eqn:Hu; [|discriminate].
    destruct (Hupd _ _ Hu) as (Hm & Hr & Hf).
    destruct (is_research _) eqn:Hres.
    2:{ intros Hs; inv_Ok. apply Hkeep; [|auto].
        intros ids (_ & _ & Hname & _). fold resp in Hname. congruence. }
    unfold get.
    destruct (nullish resp) eqn:Hnull; [discriminate|].
    assert (Hopt : opt_get resp "output_data" = prop resp "output_data").
    { unfold opt_get. now rewrite Hnull. }
    destruct (prop resp "output_data") as [| | | | | taskIds |] eqn:Hout;
      intros Hs; inv_Ok;
      try (apply Hkeep; [|now auto];
           intros ids (_ & _ & _ & Hout'); fold resp in Hout'; congruence).
    split; [exists []; simpl; now rewrite app_nil_r|].
    right. exists taskIds. simpl. rewrite Hr.
    repeat split; try reflexivity; try assumption.
  - destruct (truthy _); [|unfold_outcome]; intros Hs; inv_Ok;
      apply Hkeep; eauto.
  - intros Hs. apply Hkeep; eauto.
  - unfold_outcome; intros Hs; inv_Ok; apply Hkeep; auto.
  - unfold_outcome; intros Hs; inv_Ok; apply Hkeep; auto.
  - (* agent_output *)
    destruct (decide _); unfold_outcome; intros Hs; inv_Ok;
      [apply Hkeep; now auto|].
    destruct (thinkingRef s) as [p|]; simpl;
      (split; [|left; split; [auto | split; reflexivity]]).
    + rewrite attach_thinking_snoc. eexists; reflexivity.
    + eexists; reflexivity.
  - destruct (decide _); unfold_outcome; intros Hs; inv_Ok;
      [apply Hkeep; now auto|].
    split; [|left; split; [auto | split; reflexivity]]. simpl. eexists; reflexivity.
  - destruct (decide _); unfold_outcome; intros Hs; inv_Ok;
      [apply Hkeep; now auto|].
    split; [|left; split; [auto | split; reflexivity]]. simpl. eexists; reflexivity.
  - unfold_outcome; intros Hs; inv_Ok; apply Hkeep; auto.
Qed.

(** ** The sub-agent registry *)

Lemma register_task_ids_cons id taskIds (prev : gmap string ThinkingProgress.t) :
  register_task_ids (id :: taskIds) prev =
  register_task_ids taskIds
    (match prev !! to_key id with
     | Some _ => prev
     | None =>
         if inherited_name (to_key id) then prev
         else <[to_key id := empty_progress id]> prev
     end).
Proof. reflexivity. Qed.

Lemma register_task_ids_keeps taskIds :
  forall (prev : gmap string ThinkingProgress.t) k p,
    prev !! k = Some p -> register_task_ids taskIds prev !! k = Some p.
Proof.
  induction taskIds as [|id taskIds IH]; intros prev k p Hk; [exact Hk|].
  rewrite register_task_ids_cons. apply IH.
  destruct (prev !! to_key id) eqn:Hid; [exact Hk|].
  destruct (inherited_name (to_key id)); [exact Hk|].
  rewrite lookup_insert_ne; [exact Hk | congruence].
Qed.



(** Under the mirror invariant the sub-agent switch keeps the key set of the
    registry. *)
Lemma handle_subagent_dom s event s' p :
  registry_in_sync s ->
  subAgentProgressRef s !! AgentEvent.task_id event = Some p ->
  handle_subagent s event = Ok s' ->
  dom (subAgentProgress s') = dom (subAgentProgress s) /\ registry_in_sync s'.
Proof.
  intros Hsync Hp Hs. unfold registry_in_sync in *.
  apply handle_subagent_shape in Hs as (m & r & pr & -> & Hm & _). simpl.
  destruct Hm as [[-> ->] | (n & -> & ->)]; [now split|].
  split; [|reflexivity]. rewrite dom_insert_L.
  apply subseteq_union_1_L, singleton_subseteq_l, elem_of_dom.
  rewrite <- Hsync. now exists p.
Qed.

(** The mirror invariant holds initially and every run of the handler keeps
    it. *)
Lemma registry_in_sync_initial : registry_in_sync initial_state.
Proof. reflexivity. Qed.

Lemma registry_in_sync_step s clk event s' :
  registry_in_sync s -> handleWSMessage s clk event = Ok s' ->
  registry_in_sync s'.
Proof.
  intros Hsync Hs.
  destruct (subAgentProgressRef s !! AgentEvent.task_id event) as [p|] eqn:Hp.
  - unfold handleWSMessage in Hs. rewrite Hp in Hs.
    now apply (handle_subagent_dom s event s' p).
  - destruct (main_path_effects s clk event s' Hp Hs)
      as [_ [(_ & Hr & Hf) | (ids & _ & _ & Hf & _)]]; [|exact Hf].
    unfold registry_in_sync in *. congruence.
Qed.

(** A research completion is never rejected. *)
Lemma research_completion_Ok s clk event taskIds :
  research_completion s event taskIds ->
  exists s', handleWSMessage s clk event = Ok s'.
Proof.
  intros (Hmain & Hk & Hres & Hout).
  unfold handleWSMessage, handle_batch, handle_main. rewrite Hmain, Hk.
  set (resp := opt_get (AgentEvent.data event) "result") in *.
  assert (Hresp : nullish resp = false).
  { destruct (nullish resp) eqn:Hn; [|reflexivity].
    unfold opt_get in Hout. now rewrite Hn in Hout. }
  assert (Htc : truthy (opt_get resp "tool_call") = true).
  { destruct (opt_get resp "tool_call"); try discriminate Hres; reflexivity. }
  rewrite Htc, Hres. unfold updateThinking, completed_updater, get.
  rewrite Hresp. unfold opt_get in Hout. rewrite Hresp in Hout. rewrite Hout.
  destruct (nullish (opt_get resp "tool_call")) eqn:Hn.
  { destruct (opt_get resp "tool_call"); discriminate. }
  destruct (currentThinking s); unfold_outcome; eexists; reflexivity.
Qed.


(** C6, as the code has it.  When the batch progress tracker holds a number,
    whoever wrote it, the carousel shows that number rounded to the nearest
    integer: a reported progress such as 40, and equally the 0 that the
    handler itself writes when a research call completes.  When the tracker
    holds nothing the carousel shows [Math.round((completed / total) * 100)],
    computed in doubles, [completed] counting the batch's task ids whose
    registry entry has [is_complete = true]; for a batch of at most 100
    tasks this is an integer within one half of [100 * completed / total].
    Two of three tasks complete give 67. *)
Theorem batch_percentage_spec s taskIds :
  taskIds <> [] ->
  (forall q, researchProgress s = VNum q ->
     exists z, batch_percentage s taskIds = Some z /\ nearest_integer q z) /\
  (researchProgress s = VNull ->
     batch_percentage s taskIds =
       percent_of
         (length (filter (fun id => task_is_complete (subAgentProgress s) id = true)
                    taskIds))
         (length taskIds) /\
     ((length taskIds <= 100)%nat ->
      exists z,
        batch_percentage s taskIds = Some z /\
        within_half
          (100 * inject_Z (Z.of_nat
                    (length (filter
                       (fun id => task_is_complete (subAgentProgress s) id = true)
                       taskIds)))
             / inject_Z (Z.of_nat (length taskIds))) z)) /\
  (forall pa pb pc,
     ThinkingProgress.is_complete pa = true ->
     ThinkingProgress.is_complete pb = true ->
     ThinkingProgress.is_complete pc = false ->
     SubAgentCarousel [VStr "a"; VStr "b"; VStr "c"]
       (<["a" := pa]> (<["b" := pb]> (<["c" := pc]> ∅))) VUndef =
       Some (Carousel.mk (Some 67%Z) false)) /\
  (forall clk event,
     subAgentProgressRef s !! AgentEvent.task_id event = None ->
     event_kind (AgentEvent.event_type event) = batch_progress ->
     AgentEvent.progress event = VNum 40 ->
     exists s', handleWSMessage s clk event = Ok s' /\
       researchProgress s' = VNum 40 /\
       subAgentProgress s' = subAgentProgress s /\
       batch_percentage s' taskIds = Some 40%Z) /\
  (forall clk event ids,
     research_completion s event ids ->
     exists s', handleWSMessage s clk event = Ok s' /\
       researchProgress s' = VNum 0 /\
       batch_percentage s' taskIds = Some 0%Z).
Proof.
  intros Hne. split; [|split; [|split; [|split]]].
  - intros q Hq. exists (round_number q). split; [|apply round_number_nearest].
    now apply batch_percentage_tracked.
  - intros Hnull.
    pose proof (batch_percentage_untracked s taskIds Hne Hnull) as Hpct.
    unfold completed_count in Hpct. split; [exact Hpct|].
    intros Hbound. rewrite Hpct.
    apply (percent_of_within_half
             (length (filter (fun id => task_is_complete (subAgentProgress s) id = true)
                        taskIds)) (length taskIds)).
    + apply length_filter.
    + destruct taskIds; [congruence | simpl in *; lia].
  - intros pa pb pc Ha Hb Hc.
    unfold SubAgentCarousel, computedPct, completed_count, task_is_complete.
    cbn [filter list_filter to_key].
    rewrite lookup_insert_eq.
    rewrite lookup_insert_ne, lookup_insert_eq by discriminate.
    rewrite !lookup_insert_ne, lookup_insert_eq by discriminate.
    rewrite Ha, Hb, Hc. vm_compute. reflexivity.
  - intros clk event Hmain Hk Hp. unfold handleWSMessage, handle_batch.
    rewrite Hmain, Hk, Hp. eexists. split; [reflexivity|]. simpl.
    split; [reflexivity|]. split; [reflexivity|].
    unfold batch_percentage, progressPercent_of. simpl.
    destruct taskIds; [congruence | reflexivity].
  - intros clk event ids Hres.
    destruct (research_completion_Ok s clk event ids Hres) as [s' Hs].
    exists s'. split; [exact Hs|].
    pose proof Hres as (Hmain & _).
    destruct (main_path_effects s clk event s' Hmain Hs)
      as [_ [(Hnot & _) | (ids' & _ & _ & _ & Hzero)]];
      [now apply Hnot in Hres|].
    split; [exact Hzero|].
    rewrite (batch_percentage_tracked s' taskIds 0 Hne Hzero). reflexivity.
Qed.

(** ** The thinking reducer *)

Lemma handle_subagent_reducer s event :
  handle_subagent s event =
  s1 ← updateSubAgentThinking s (AgentEvent.task_id event) (subagent_reducer event);
  mret (if is_terminal (event_kind (AgentEvent.event_type event))
        then processedTasks_add (AgentEvent.task_id event) s1
        else s1).
Proof.
  unfold handle_subagent, subagent_reducer, updateSubAgentThinking,
    completion_failed_updater.
  destruct (event_kind (AgentEvent.event_type event)); simpl;
    try destruct (truthy _); unfold_outcome; try reflexivity;
    try destruct (started_updater _ _ _) as [[n|]|];
    try destruct (completed_updater _ _ _) as [[n|]|];
    try destruct (failed_updater _ _ _) as [[n|]|];
    try destruct (subAgentProgress s !! AgentEvent.task_id event) as [p|];
    reflexivity.
Qed.

Lemma get_truthy v k : truthy v = true -> get v k = Ok (prop v k).
Proof. unfold get. destruct v; try discriminate; reflexivity. Qed.

Lemma truthy_opt_get_not_nullish v k :
  truthy (opt_get v k) = true -> nullish v = false.
Proof. unfold opt_get. destruct (nullish v); [discriminate | reflexivity]. Qed.

Lemma started_updater_Ok event toolCall prev next :
  truthy toolCall = true ->
  started_updater event toolCall prev = Ok next ->
  exists c,
    ToolCall.status c = started /\
    next = Some (with_tool_calls
                   (<[to_key (prop toolCall "id") := c]>
                      (ThinkingProgress.tool_calls
                         (default (empty_progress (VStr (AgentEvent.task_id event))) prev)))
                   (default (empty_progress (VStr (AgentEvent.task_id event))) prev)).
Proof.
  intros Htc. unfold started_updater. rewrite !(get_truthy toolCall) by exact Htc.
  unfold_outcome.
  destruct (get (prop toolCall "function") "name") as [name|]; [|discriminate].
  destruct (get (prop toolCall "function") "arguments") as [args|]; [|discriminate].
  intros Hn; inv_Ok. eexists. split; [|reflexivity]. reflexivity.
Qed.

Lemma completed_updater_Some resp p :
  truthy (opt_get resp "tool_call") = true ->
  completed_updater resp (opt_get resp "tool_call") (Some p) =
  Ok (Some (with_tool_calls
              (<[to_key (prop (opt_get resp "tool_call") "id") :=
                   completed_call
                     (ThinkingProgress.tool_calls p
                        !! to_key (prop (opt_get resp "tool_call") "id"))
                     (prop resp "output_data")]>
                 (ThinkingProgress.tool_calls p)) p)).
Proof.
  intros Htc. unfold completed_updater.
  rewrite (get_truthy _ "id") by exact Htc.
  unfold get. rewrite (truthy_opt_get_not_nullish _ _ Htc). reflexivity.
Qed.

Lemma failed_updater_Some event toolCall p :
  truthy toolCall = true ->
  failed_updater event toolCall (Some p) =
  Ok (Some (with_tool_calls
              (<[to_key (prop toolCall "id") :=
                   failed_call
                     (ThinkingProgress.tool_calls p !! to_key (prop toolCall "id"))
                     (AgentEvent.error event)]>
                 (ThinkingProgress.tool_calls p)) p)).
Proof.
  intros Htc. unfold failed_updater. now rewrite get_truthy by exact Htc.
Qed.

Lemma completed_call_status old out :
  ToolCall.status (completed_call old out) = completed.
Proof. now destruct old. Qed.

Lemma failed_call_status old err :
  ToolCall.status (failed_call old err) = failed.
Proof. now destruct old. Qed.

(** What the reducer of the sub-agent switch makes of an existing entry. *)
Lemma subagent_reducer_Some event p next :
  subagent_reducer event (Some p) = Ok next ->
  next = None \/
  (exists c,
     named_status true (event_kind (AgentEvent.event_type event)) =
       Some (ToolCall.status c) /\
     next = Some (with_tool_calls
                    (<[tool_call_key event := c]> (ThinkingProgress.tool_calls p)) p)) \/
  (event_kind (AgentEvent.event_type event) = progress_update_completion_failed /\
   next = Some (with_error (AgentEvent.error event) p)) \/
  (is_terminal (event_kind (AgentEvent.event_type event)) = true /\
   exists v, next = Some (complete_with_output v p) \/
             next = Some (complete_with_error v p)).
Proof.
  unfold subagent_reducer, tool_call_key, tool_call_of.
  destruct (event_kind (AgentEvent.event_type event)) eqn:Hk;
    try (destruct (truthy _) eqn:Htc);
    unfold completion_failed_updater; unfold_outcome; intros Hn;
    try (inv_Ok; now left);
    try (apply started_updater_Ok in Hn as (c & Hc & ->); [|exact Htc];
         right; left; exists c; simpl; rewrite Hc; now split);
    try (rewrite completed_updater_Some in Hn by exact Htc; inv_Ok;
         right; left; eexists; split; [|reflexivity];
         now rewrite completed_call_status);
    try (rewrite failed_updater_Some in Hn by exact Htc; inv_Ok;
         right; left; eexists; split; [|reflexivity];
         now rewrite failed_call_status);
    try (inv_Ok; right; right; left; now split);
    try (inv_Ok; right; right; right; split; [reflexivity|]; eexists; eauto).
Qed.

Lemma status_in_with_tool_calls key key' c base :
  status_in
    (Some (with_tool_calls (<[key' := c]> (ThinkingProgress.tool_calls base)) base))
    key =
  if decide (key' = key) then Some (ToolCall.status c) else status_in (Some base) key.
Proof.
  unfold status_in. simpl. rewrite lookup_insert.
  now destruct (decide (key' = key)).
Qed.

(** An event that carries a tool call and reaches an entry through a
    tool-action case puts under the call's id an entry with the status the
    case names. *)
Lemma subagent_reducer_addressed event p named next :
  named_status true (event_kind (AgentEvent.event_type event)) = Some named ->
  truthy (tool_call_of event) = true ->
  subagent_reducer event (Some p) = Ok next ->
  exists c,
    ToolCall.status c = named /\
    next = Some (with_tool_calls
                   (<[tool_call_key event := c]> (ThinkingProgress.tool_calls p)) p).
Proof.
  intros Hnamed Htc Hn.
  destruct (subagent_reducer_Some event p next Hn)
    as [-> | [(c & Hc & ->) | [[Hkind _] | [Hterm _]]]].
  - exfalso. revert Hn Hnamed Htc. unfold subagent_reducer, tool_call_of.
    destruct (event_kind (AgentEvent.event_type event)); cbv zeta;
      try discriminate; intros Hn _ Htc; rewrite Htc in Hn.
    + apply started_updater_Ok in Hn as (c & _ & Hn); [discriminate | exact Htc].
    + apply started_updater_Ok in Hn as (c & _ & Hn); [discriminate | exact Htc].
    + apply started_updater_Ok in Hn as (c & _ & Hn); [discriminate | exact Htc].
    + rewrite completed_updater_Some in Hn by exact Htc. discriminate.
    + rewrite failed_updater_Some in Hn by exact Htc. discriminate.
  - exists c. split; [congruence | reflexivity].
  - rewrite Hkind in Hnamed. discriminate.
  - destruct (event_kind (AgentEvent.event_type event)); discriminate.
Qed.

(** A tool-action case that finds no tool call breaks out. *)
Lemma subagent_reducer_without_tool_call event prev named :
  named_status true (event_kind (AgentEvent.event_type event)) = Some named ->
  truthy (tool_call_of event) = false ->
  subagent_reducer event prev = Ok None.
Proof.
  unfold subagent_reducer, tool_call_of.
  destruct (event_kind (AgentEvent.event_type event)); simpl; try discriminate;
    intros _ ->; reflexivity.
Qed.

(** What one run of the sub-agent switch does to the registry. *)
Lemma subagent_registry_step s clk event s' :
  is_Some (subAgentProgressRef s !! AgentEvent.task_id event) ->
  handleWSMessage s clk event = Ok s' ->
  exists next,
    subagent_reducer event (subAgentProgress s !! AgentEvent.task_id event) = Ok next /\
    subAgentProgress s' =
      match next with
      | Some n => <[AgentEvent.task_id event := n]> (subAgentProgress s)
      | None => subAgentProgress s
      end.
Proof.
  intros [q Href] Hs. unfold handleWSMessage in Hs. rewrite Href in Hs.
  rewrite handle_subagent_reducer in Hs. unfold_outcome.
  destruct (updateSubAgentThinking s _ _) as [s1|] eqn:Hu; [|discriminate].
  apply updateSubAgentThinking_Ok in Hu as (next & Hnext & ->).
  exists next. split; [exact Hnext|].
  inv_Ok. destruct (is_terminal _), next; reflexivity.
Qed.

(** C1, as the code has it.  Completion is kept, the entry is not frozen.  A
    registry entry with [is_complete = true] still has it, and its task id,
    after any event, and an event addressed to another task leaves the entry
    as it is.  Its [final_output] changes only by a terminal event, its
    [error] only by a terminal event or a [progress_update_completion_failed]
    event, its [tool_calls] only by a tool-action event.  An event addressed
    to it is still merged: [progress_update_completion_failed] stores the
    error of the event, and a tool-action event that carries a tool call
    puts under the call's id an entry with the status the event names.  The
    transcript, which holds the finalized snapshots of the main task, is
    only ever extended at its end. *)
Theorem completion_is_kept s clk event s' :
  handleWSMessage s clk event = Ok s' ->
  (exists tail, messages s' = (messages s ++ tail)%list) /\
  (forall k p,
     subAgentProgress s !! k = Some p ->
     ThinkingProgress.is_complete p = true ->
     exists p',
       subAgentProgress s' !! k = Some p' /\
       ThinkingProgress.is_complete p' = true /\
       ThinkingProgress.task_id p' = ThinkingProgress.task_id p /\
       (k <> AgentEvent.task_id event -> p' = p) /\
       (is_terminal (event_kind (AgentEvent.event_type event)) = false ->
        ThinkingProgress.final_output p' = ThinkingProgress.final_output p) /\
       (is_terminal (event_kind (AgentEvent.event_type event)) = false ->
        event_kind (AgentEvent.event_type event) <> progress_update_completion_failed ->
        ThinkingProgress.error p' = ThinkingProgress.error p) /\
       (named_status true (event_kind (AgentEvent.event_type event)) = None ->
        ThinkingProgress.tool_calls p' = ThinkingProgress.tool_calls p) /\
       (k = AgentEvent.task_id event ->
        is_Some (subAgentProgressRef s !! AgentEvent.task_id event) ->
        (event_kind (AgentEvent.event_type event) = progress_update_completion_failed ->
         p' = with_error (AgentEvent.error event) p) /\
        (forall named,
           named_status true (event_kind (AgentEvent.event_type event)) = Some named ->
           truthy (tool_call_of event) = true ->
           exists c,
             ToolCall.status c = named /\
             p' = with_tool_calls
                    (<[tool_call_key event := c]> (ThinkingProgress.tool_calls p)) p))).
Proof.
  intros Hs.
  destruct (subAgentProgressRef s !! AgentEvent.task_id event) as [q|] eqn:Href.
  - (* sub-agent switch *)
    split.
    { destruct (subagent_event_frame_messages s clk event s') as [-> _];
        [now exists q | exact Hs |]. exists []. now rewrite app_nil_r. }
    intros k p Hk Hc.
    destruct (subagent_registry_step s clk event s') as (next & Hnext & Hreg);
      [now exists q | exact Hs |].
    rewrite Hreg. clear Hreg Hs.
    destruct (decide (k = AgentEvent.task_id event)) as [-> | Hne].
    + rewrite Hk in Hnext.
      assert (Hfailed :
        event_kind (AgentEvent.event_type event) = progress_update_completion_failed ->
        next = Some (with_error (AgentEvent.error event) p)).
      { intros Hkind. revert Hnext. unfold subagent_reducer. rewrite Hkind.
        unfold completion_failed_updater. unfold_outcome. intros Hn. now inv_Ok. }
      assert (Hnamed : forall named,
        named_status true (event_kind (AgentEvent.event_type event)) = Some named ->
        truthy (tool_call_of event) = true ->
        exists c, ToolCall.status c = named /\
          next = Some (with_tool_calls
                         (<[tool_call_key event := c]> (ThinkingProgress.tool_calls p))
                         p)).
      { intros named Hn Htc. now apply (subagent_reducer_addressed event p named next). }
      destruct next as [n|].
      * rewrite lookup_insert_eq. exists n. split; [reflexivity|].
        assert (Hrest :
          (event_kind (AgentEvent.event_type event) = progress_update_completion_failed ->
           n = with_error (AgentEvent.error event) p) /\
          (forall named,
             named_status true (event_kind (AgentEvent.event_type event)) = Some named ->
             truthy (tool_call_of event) = true ->
             exists c, ToolCall.status c = named /\
               n = with_tool_calls
                     (<[tool_call_key event := c]> (ThinkingProgress.tool_calls p)) p)).
        { split.
          - intros Hkind. specialize (Hfailed Hkind). congruence.
          - intros named Hn Htc. destruct (Hnamed named Hn Htc) as (c & Hc' & Heq).
            exists c. split; [exact Hc' | congruence]. }
        apply subagent_reducer_Some in Hnext
          as [Hn | [(c & Hcs & Hn) | [[Hkind Hn] | [Hterm (v & [Hn | Hn])]]]];
          try discriminate Hn; injection Hn as Hn; subst n; simpl.
        -- (* a tool-action event *)
           repeat split; try assumption; try reflexivity; try congruence;
             try (now destruct Hrest); intros; congruence.
        -- (* completion failed *)
           repeat split; try assumption; try reflexivity; try congruence;
             try (now destruct Hrest); intros; congruence.
        -- (* a terminal event with an output *)
           repeat split; try assumption; try reflexivity; try congruence;
             try (now destruct Hrest); intros; congruence.
        -- (* a terminal event with an error *)
           repeat split; try assumption; try reflexivity; try congruence;
             try (now destruct Hrest); intros; congruence.
      * exists p. split; [exact Hk|]. repeat split; try assumption; try reflexivity.
        -- intros Hkind. specialize (Hfailed Hkind). discriminate.
        -- intros named Hn Htc. destruct (Hnamed named Hn Htc) as (c & _ & Heq).
           discriminate.
    + exists p. split.
      { destruct next; [now rewrite lookup_insert_ne by congruence | exact Hk]. }
      repeat split; try assumption; try reflexivity; intros; congruence.
  - (* main path *)
    destruct (main_path_effects s clk event s' Href Hs)
      as [Hmsg [(_ & Hr & _) | (ids & _ & Hr & _)]]; (split; [exact Hmsg|]);
      intros k p Hk Hc; rewrite Hr; exists p.
    + repeat split; try assumption; try reflexivity;
        intros; exfalso; eapply is_Some_None; eassumption.
    + split; [now apply register_task_ids_keeps|].
      repeat split; try assumption; try reflexivity;
        intros; exfalso; eapply is_Some_None; eassumption.
Qed.

(** What an event on the main path does to the live Task Progress. *)
Lemma main_thinking_step s clk event s' :
  subAgentProgressRef s !! AgentEvent.task_id event = None ->
  handleWSMessage s clk event = Ok s' ->
  currentThinking s' = currentThinking s \/
  currentThinking s' = None \/
  (exists c,
     named_status false (event_kind (AgentEvent.event_type event)) =
       Some (ToolCall.status c) /\
     currentThinking s' =
       Some (with_tool_calls
               (<[tool_call_key event := c]>
                  (ThinkingProgress.tool_calls
                     (default (empty_progress (VStr (AgentEvent.task_id event)))
                        (currentThinking s))))
               (default (empty_progress (VStr (AgentEvent.task_id event)))
                  (currentThinking s)))) \/
  (exists p, currentThinking s = Some p /\
     currentThinking s' = Some (with_error (AgentEvent.error event) p)).
Proof.
  intros Hmain. unfold handleWSMessage, handle_batch, handle_main.
  rewrite Hmain. unfold tool_call_key, tool_call_of.
  destruct (event_kind (AgentEvent.event_type event)) eqn:Hk.
  - destruct (if is_number _ then _ else _); unfold_outcome; intros Hs; inv_Ok;
      now left.
  - unfold_outcome; intros Hs; inv_Ok; now left.
  - destruct (truthy _) eqn:Htc; [|unfold_outcome; intros Hs; inv_Ok; now left].
    intros Hs. apply updateThinking_Ok in Hs as (next & Hn & ->).
    apply started_updater_Ok in Hn as (c & Hc & ->); [|exact Htc].
    right; right; left. exists c. simpl. rewrite Hc. now split.
  - set (resp := opt_get (AgentEvent.data event) "result").
    destruct (truthy (opt_get resp "tool_call")) eqn:Htc;
      [|unfold_outcome; intros Hs; inv_Ok; now left].
    unfold_outcome.
    destruct (updateThinking s _) as [s1|] eqn:Hu; [|discriminate].
    apply updateThinking_Ok in Hu as (next & Hn & ->).
    assert (Hcur : forall s2, currentThinking s2 = next ->
      currentThinking s2 = currentThinking s \/
      currentThinking s2 = None \/
      (exists c, Some completed = Some (ToolCall.status c) /\
         currentThinking s2 =
           Some (with_tool_calls
                   (<[to_key (prop (opt_get resp "tool_call") "id") := c]>
                      (ThinkingProgress.tool_calls
                         (default (empty_progress (VStr (AgentEvent.task_id event)))
                            (currentThinking s))))
                   (default (empty_progress (VStr (AgentEvent.task_id event)))
                      (currentThinking s)))) \/
      (exists p, currentThinking s = Some p /\
         currentThinking s2 = Some (with_error (AgentEvent.error event) p))).
    { intros s2 ->. destruct (currentThinking s) as [p|] eqn:Hp.
      - rewrite completed_updater_Some in Hn by exact Htc. inv_Ok.
        right; right; left. eexists. split; [|reflexivity].
        now rewrite completed_call_status.
      - simpl in Hn. unfold_outcome. inv_Ok. now left. }
    destruct (is_research _); [|intros Hs; inv_Ok; now apply Hcur].
    destruct (get resp "output_data") as [[| | | | | ids |]|]; intros Hs; inv_Ok;
      now apply Hcur.
  - destruct (truthy _) eqn:Htc; [|unfold_outcome; intros Hs; inv_Ok; now left].
    intros Hs. apply updateThinking_Ok in Hs as (next & Hn & ->).
    destruct (currentThinking s) as [p|] eqn:Hp.
    + rewrite failed_updater_Some in Hn by exact Htc. inv_Ok.
      right; right; left. eexists. split; [|reflexivity].
      now rewrite failed_call_status.
    + simpl in Hn. unfold_outcome. inv_Ok. now left.
  - intros Hs. apply updateThinking_Ok in Hs as (next & Hn & ->).
    unfold completion_failed_updater in Hn. unfold_outcome. inv_Ok.
    destruct (currentThinking s) as [p|] eqn:Hp; simpl.
    + right; right; right. now exists p.
    + now left.
  - unfold_outcome; intros Hs; inv_Ok; now left.
  - unfold_outcome; intros Hs; inv_Ok; now left.
  - destruct (decide _); unfold_outcome; intros Hs; inv_Ok; [now left|].
    right; left. now destruct (thinkingRef s).
  - destruct (decide _); unfold_outcome; intros Hs; inv_Ok; [now left|].
    now (right; left).
  - destruct (decide _); unfold_outcome; intros Hs; inv_Ok; [now left|].
    now (right; left).
  - unfold_outcome; intros Hs; inv_Ok; now left.
Qed.

Lemma status_in_with_error err p key :
  status_in (Some (with_error err p)) key = status_in (Some p) key.
Proof. reflexivity. Qed.

(** ** Results for a tool call that never started *)

Lemma main_result_event s clk event :
  subAgentProgressRef s !! AgentEvent.task_id event = None ->
  event_kind (AgentEvent.event_type event) = progress_update_tool_action_completed \/
  event_kind (AgentEvent.event_type event) = progress_update_tool_action_failed ->
  truthy (tool_call_of event) = true ->
  exists s',
    handleWSMessage s clk event = Ok s' /\
    currentThinking s' =
      match currentThinking s with
      | None => None
      | Some p =>
          Some (with_tool_calls
                  (<[tool_call_key event :=
                       match event_kind (AgentEvent.event_type event) with
                       | progress_update_tool_action_completed =>
                           completed_call
                             (ThinkingProgress.tool_calls p !! tool_call_key event)
                             (prop (opt_get (AgentEvent.data event) "result")
                                "output_data")
                       | _ =>
                           failed_call
                             (ThinkingProgress.tool_calls p !! tool_call_key event)
                             (AgentEvent.error event)
                       end]> (ThinkingProgress.tool_calls p)) p)
      end.
Proof.
  intros Hmain Hkind. unfold handleWSMessage, handle_batch, handle_main.
  unfold tool_call_key, tool_call_of. rewrite Hmain.
  destruct Hkind as [Hk | Hk]; rewrite Hk; intros Htc; rewrite Htc.
  - set (resp := opt_get (AgentEvent.data event) "result") in *.
    unfold updateThinking.
    assert (Hresp : get resp "output_data" = Ok (prop resp "output_data")).
    { unfold get. now rewrite (truthy_opt_get_not_nullish _ _ Htc). }
    destruct (currentThinking s) as [p|].
    + rewrite completed_updater_Some by exact Htc. unfold_outcome.
      destruct (is_research _); [|eexists; split; reflexivity].
      rewrite Hresp.
      destruct (prop resp "output_data"); eexists; split; reflexivity.
    + simpl. unfold_outcome.
      destruct (is_research _); [|eexists; split; reflexivity].
      rewrite Hresp.
      destruct (prop resp "output_data"); eexists; split; reflexivity.
  - unfold updateThinking. destruct (currentThinking s) as [p|].
    + rewrite failed_updater_Some by exact Htc. eexists; split; reflexivity.
    + eexists; split; reflexivity.
Qed.

Lemma subagent_result_event s event :
  event_kind (AgentEvent.event_type event) = progress_update_tool_action_completed \/
  event_kind (AgentEvent.event_type event) = progress_update_tool_action_failed ->
  truthy (tool_call_of event) = true ->
  handle_subagent s event =
    Ok match subAgentProgress s !! AgentEvent.task_id event with
       | None => s
       | Some p =>
           let updated :=
             <[AgentEvent.task_id event :=
                 with_tool_calls
                   (<[tool_call_key event :=
                        match event_kind (AgentEvent.event_type event) with
                        | progress_update_tool_action_completed =>
                            completed_call
                              (ThinkingProgress.tool_calls p !! tool_call_key event)
                              (prop (opt_get (AgentEvent.data event) "result")
                                 "output_data")
                        | _ =>
                            failed_call
                              (ThinkingProgress.tool_calls p !! tool_call_key event)
                              (AgentEvent.error event)
                        end]> (ThinkingProgress.tool_calls p)) p]>
               (subAgentProgress s) in
           set_subAgentProgress updated (set_subAgentProgressRef updated s)
       end.
Proof.
  intros Hkind. unfold handle_subagent, tool_call_key, tool_call_of.
  destruct Hkind as [Hk | Hk]; rewrite Hk; intros Htc; rewrite Htc;
    unfold updateSubAgentThinking;
    destruct (subAgentProgress s !! AgentEvent.task_id event) as [p|];
    try reflexivity.
  - now rewrite completed_updater_Some by exact Htc.
  - now rewrite failed_updater_Some by exact Htc.
Qed.

(** C3, as the code has it.  A completed or failed event whose tool-call id is
    not recorded is a no-op only where the task has no Task Progress.  Where
    the Task Progress exists, the event adds under that id an entry that holds
    the status and the result or error of the event and neither [id] nor
    [tool_name] nor [arguments]; the rest of the Task Progress stays. *)
Theorem result_for_unknown_id s clk event :
  event_kind (AgentEvent.event_type event) = progress_update_tool_action_completed \/
  event_kind (AgentEvent.event_type event) = progress_update_tool_action_failed ->
  truthy (tool_call_of event) = true ->
  (subAgentProgressRef s !! AgentEvent.task_id event = None ->
   currentThinking s = None ->
   exists s', handleWSMessage s clk event = Ok s' /\ currentThinking s' = None) /\
  (forall p,
     subAgentProgressRef s !! AgentEvent.task_id event = None ->
     currentThinking s = Some p ->
     ThinkingProgress.tool_calls p !! tool_call_key event = None ->
     exists s',
       handleWSMessage s clk event = Ok s' /\
       currentThinking s' =
         Some (with_tool_calls
                 (<[tool_call_key event := orphan_call event]>
                    (ThinkingProgress.tool_calls p)) p)) /\
  (is_Some (subAgentProgressRef s !! AgentEvent.task_id event) ->
   subAgentProgress s !! AgentEvent.task_id event = None ->
   handleWSMessage s clk event = Ok s) /\
  (forall p,
     is_Some (subAgentProgressRef s !! AgentEvent.task_id event) ->
     subAgentProgress s !! AgentEvent.task_id event = Some p ->
     ThinkingProgress.tool_calls p !! tool_call_key event = None ->
     exists s',
       handleWSMessage s clk event = Ok s' /\
       subAgentProgress s' =
         <[AgentEvent.task_id event :=
             with_tool_calls
               (<[tool_call_key event := orphan_call event]>
                  (ThinkingProgress.tool_calls p)) p]> (subAgentProgress s)).
Proof.
  intros Hkind Htc. repeat split.
  - intros Hmain Hnone.
    destruct (main_result_event s clk event Hmain Hkind Htc) as (s' & Hs & Hc).
    exists s'. rewrite Hnone in Hc. now split.
  - intros p Hmain Hp Hkey.
    destruct (main_result_event s clk event Hmain Hkind Htc) as (s' & Hs & Hc).
    exists s'. split; [exact Hs|]. rewrite Hp, Hkey in Hc. rewrite Hc.
    unfold orphan_call. now destruct Hkind as [-> | ->].
  - intros [q Hq] Hnone. unfold handleWSMessage. rewrite Hq.
    rewrite subagent_result_event by assumption. now rewrite Hnone.
  - intros p [q Hq] Hp Hkey. unfold handleWSMessage. rewrite Hq.
    rewrite subagent_result_event by assumption. rewrite Hp, Hkey.
    eexists. split; [reflexivity|]. simpl.
    unfold orphan_call. now destruct Hkind as [-> | ->].
Qed.

(** ** The idempotency guard *)

(** The main switch consults the set of processed tasks before it applies a
    terminal event: a second delivery changes nothing. *)
Lemma main_terminal_event_guarded s clk event :
  subAgentProgressRef s !! AgentEvent.task_id event = None ->
  is_terminal (event_kind (AgentEvent.event_type event)) = true ->
  AgentEvent.task_id event ∈ processedTasksRef s ->
  handleWSMessage s clk event = Ok s.
Proof.
  intros Hmain Hterm Hin. unfold handleWSMessage, handle_batch, handle_main.
  rewrite Hmain.
  destruct (event_kind (AgentEvent.event_type event)); try discriminate Hterm;
    now rewrite decide_True by exact Hin.
Qed.

(** ** The status of a tool call *)

(** On the main path a tool-action case that finds no tool call breaks
    out. *)
Lemma main_without_tool_call s clk event named :
  subAgentProgressRef s !! AgentEvent.task_id event = None ->
  named_status false (event_kind (AgentEvent.event_type event)) = Some named ->
  truthy (tool_call_of event) = false ->
  handleWSMessage s clk event = Ok s.
Proof.
  intros Hmain. unfold handleWSMessage, handle_batch, handle_main, tool_call_of.
  rewrite Hmain.
  destruct (event_kind (AgentEvent.event_type event)); simpl; try discriminate;
    intros _ ->; reflexivity.
Qed.

(** On the main path a tool-action event that carries a tool call puts under
    the call's id, in the live progress, an entry with the status that the
    event names. *)
Lemma main_addressed_step s clk event s' p named :
  subAgentProgressRef s !! AgentEvent.task_id event = None ->
  handleWSMessage s clk event = Ok s' ->
  currentThinking s = Some p ->
  named_status false (event_kind (AgentEvent.event_type event)) = Some named ->
  truthy (tool_call_of event) = true ->
  exists c,
    ToolCall.status c = named /\
    currentThinking s' =
      Some (with_tool_calls
              (<[tool_call_key event := c]> (ThinkingProgress.tool_calls p)) p).
Proof.
  intros Hmain Hs Hp Hnamed Htc.
  destruct (event_kind (AgentEvent.event_type event)) eqn:Hk; try discriminate;
    simpl in Hnamed; injection Hnamed as <-.
  - revert Hs. unfold handleWSMessage, handle_batch, handle_main.
    rewrite Hmain, Hk. unfold tool_call_of in Htc. rewrite Hk in Htc.
    rewrite Htc. intros Hs. apply updateThinking_Ok in Hs as (next & Hn & ->).
    apply started_updater_Ok in Hn as (c & Hc & ->); [|exact Htc].
    exists c. split; [exact Hc|]. rewrite Hp. unfold tool_call_key, tool_call_of.
    now rewrite Hk.
  - destruct (main_result_event s clk event Hmain (or_introl Hk) Htc)
      as (s2 & Hs2 & Hcur).
    assert (s2 = s') as -> by congruence.
    rewrite Hcur, Hp, Hk. eexists. split; [|reflexivity].
    apply completed_call_status.
  - destruct (main_result_event s clk event Hmain (or_intror Hk) Htc)
      as (s2 & Hs2 & Hcur).
    assert (s2 = s') as -> by congruence.
    rewrite Hcur, Hp, Hk. eexists. split; [|reflexivity].
    apply failed_call_status.
Qed.

(** On the main path only a terminal event of a task not yet processed
    removes the live progress. *)
Lemma main_thinking_cleared s clk event s' p :
  subAgentProgressRef s !! AgentEvent.task_id event = None ->
  handleWSMessage s clk event = Ok s' ->
  currentThinking s = Some p ->
  currentThinking s' = None ->
  is_terminal (event_kind (AgentEvent.event_type event)) = true /\
  AgentEvent.task_id event ∉ processedTasksRef s.
Proof.
  intros Hmain Hs Hp Hnone.
  destruct (is_terminal (event_kind (AgentEvent.event_type event))) eqn:Hterm.
  - split; [reflexivity|]. intros Hin.
    rewrite (main_terminal_event_guarded s clk event Hmain Hterm Hin) in Hs.
    injection Hs as <-. congruence.
  - exfalso.
    destruct (main_thinking_step s clk event s' Hmain Hs)
      as [Hc | [Hc | [(c & _ & Hc) | (p0 & _ & Hc)]]]; try congruence.
    revert Hs Hc. unfold handleWSMessage, handle_batch, handle_main.
    rewrite Hmain.
    destruct (event_kind (AgentEvent.event_type event)) eqn:Hk;
      try discriminate Hterm.
    + destruct (if is_number _ then _ else _); unfold_outcome; intros Hs;
        inv_Ok; simpl; congruence.
    + unfold_outcome; intros Hs; inv_Ok; simpl; congruence.
    + destruct (truthy _) eqn:Htc;
        [|unfold_outcome; intros Hs; inv_Ok; congruence].
      intros Hs. apply updateThinking_Ok in Hs as (next & Hn & ->).
      apply started_updater_Ok in Hn as (c & _ & ->); [|exact Htc]. discriminate.
    + set (resp := opt_get (AgentEvent.data event) "result").
      destruct (truthy (opt_get resp "tool_call")) eqn:Htc;
        [|unfold_outcome; intros Hs; inv_Ok; congruence].
      unfold_outcome.
      destruct (updateThinking s _) as [s1|] eqn:Hu; [|discriminate].
      apply updateThinking_Ok in Hu as (next & Hn & ->).
      rewrite Hp in Hn. rewrite completed_updater_Some in Hn by exact Htc.
      inv_Ok.
      destruct (is_research _); [|intros Hs; inv_Ok; discriminate].
      destruct (get resp "output_data") as [[| | | | | ids |]|]; intros Hs; inv_Ok;
        discriminate.
    + destruct (truthy _) eqn:Htc;
        [|unfold_outcome; intros Hs; inv_Ok; congruence].
      intros Hs. apply updateThinking_Ok in Hs as (next & Hn & ->).
      rewrite Hp in Hn. rewrite failed_updater_Some in Hn by exact Htc.
      inv_Ok. discriminate.
    + intros Hs. apply updateThinking_Ok in Hs as (next & Hn & ->).
      unfold completion_failed_updater in Hn. unfold_outcome. inv_Ok.
      rewrite Hp. discriminate.
    + unfold_outcome; intros Hs; inv_Ok; simpl; congruence.
    + unfold_outcome; intros Hs; inv_Ok; simpl; congruence.
    + unfold_outcome; intros Hs; inv_Ok; simpl; congruence.
Qed.

(** C4, as the code has it.  For an event whose task id is no name inherited
    from [Object.prototype].  A tool-action event that carries a tool call
    and reaches a Task Progress sets the status under the call's id to the
    status it names, whatever the status was: [started] for a started event
    (also over an entry that is [completed] or [failed]), [completed] for a
    completed event, [failed] for a failed event.  A registry entry is
    reached by the events of its own task id; the live progress of the main
    task is reached by every event that is not routed to a registered
    sub-agent, whatever its task id.  Every other event leaves the status
    as it is, unless it is a terminal event of a task not yet processed,
    which removes the live progress of the main task. *)
Theorem status_follows_event s clk event s' key st :
  inherited_name (AgentEvent.task_id event) = false ->
  handleWSMessage s clk event = Ok s' ->
  (status_in (currentThinking s) key = Some st ->
   (forall named,
      subAgentProgressRef s !! AgentEvent.task_id event = None ->
      named_status false (event_kind (AgentEvent.event_type event)) = Some named ->
      truthy (tool_call_of event) = true ->
      key = tool_call_key event ->
      status_in (currentThinking s') key = Some named) /\
   (is_Some (subAgentProgressRef s !! AgentEvent.task_id event) \/
    named_status false (event_kind (AgentEvent.event_type event)) = None \/
    truthy (tool_call_of event) = false \/
    key <> tool_call_key event ->
    status_in (currentThinking s') key = Some st \/
    (currentThinking s' = None /\
     subAgentProgressRef s !! AgentEvent.task_id event = None /\
     is_terminal (event_kind (AgentEvent.event_type event)) = true /\
     AgentEvent.task_id event ∉ processedTasksRef s))) /\
  (forall taskId,
     status_in (subAgentProgress s !! taskId) key = Some st ->
     (forall named,
        taskId = AgentEvent.task_id event ->
        is_Some (subAgentProgressRef s !! AgentEvent.task_id event) ->
        named_status true (event_kind (AgentEvent.event_type event)) = Some named ->
        truthy (tool_call_of event) = true ->
        key = tool_call_key event ->
        status_in (subAgentProgress s' !! taskId) key = Some named) /\
     (taskId <> AgentEvent.task_id event \/
      subAgentProgressRef s !! AgentEvent.task_id event = None \/
      named_status true (event_kind (AgentEvent.event_type event)) = None \/
      truthy (tool_call_of event) = false \/
      key <> tool_call_key event ->
      status_in (subAgentProgress s' !! taskId) key = Some st)).
Proof.
  intros _ Hs. split.
  - (* the live progress of the main task *)
    intros Hbefore.
    destruct (currentThinking s) as [p|] eqn:Hp; [|discriminate Hbefore].
    split.
    + intros named Hmain Hnamed Htc ->.
      destruct (main_addressed_step s clk event s' p named Hmain Hs Hp Hnamed Htc)
        as (c & Hc & ->).
      rewrite status_in_with_tool_calls.
      rewrite decide_True by reflexivity. now rewrite Hc.
    + intros Hother.
      destruct (subAgentProgressRef s !! AgentEvent.task_id event) as [q|] eqn:Href.
      { left. destruct (subagent_event_frame_messages s clk event s') as [_ ->];
          [now exists q | exact Hs |]. now rewrite Hp. }
      destruct Hother as [[q Hq] | Hother]; [discriminate Hq|].
      destruct (currentThinking s') as [p'|] eqn:Hp'.
      * left.
        destruct (named_status false (event_kind (AgentEvent.event_type event)))
          as [named|] eqn:Hnamed.
        -- destruct (truthy (tool_call_of event)) eqn:Htc.
           ++ destruct Hother as [Hn | [Hn | Hkey]]; try discriminate.
              destruct (main_addressed_step s clk event s' p named Href Hs Hp Hnamed
                          Htc) as (c & Hc & Hcur).
              rewrite Hp' in Hcur. injection Hcur as ->.
              rewrite status_in_with_tool_calls.
              rewrite decide_False by congruence. exact Hbefore.
           ++ rewrite (main_without_tool_call s clk event named Href Hnamed Htc) in Hs.
              injection Hs as <-. rewrite Hp in Hp'. injection Hp' as <-.
              exact Hbefore.
        -- destruct (main_thinking_step s clk event s' Href Hs)
             as [Hc | [Hc | [(c & Hc & _) | (p0 & Hp0 & Hc)]]].
           ++ rewrite <- Hp', Hc, Hp. exact Hbefore.
           ++ congruence.
           ++ congruence.
           ++ rewrite <- Hp', Hc, status_in_with_error.
              rewrite Hp in Hp0. injection Hp0 as <-. exact Hbefore.
      * right. split; [reflexivity|]. split; [reflexivity|].
        now apply (main_thinking_cleared s clk event s' p).
  - (* the registry *)
    intros taskId Hbefore.
    destruct (subAgentProgress s !! taskId) as [p|] eqn:Hp; [|discriminate Hbefore].
    split.
    + intros named -> Href Hnamed Htc ->.
      destruct (subagent_registry_step s clk event s' Href Hs)
        as (next & Hnext & ->).
      rewrite Hp in Hnext.
      destruct (subagent_reducer_addressed event p named next Hnamed Htc Hnext)
        as (c & Hc & ->).
      rewrite lookup_insert_eq, status_in_with_tool_calls.
      rewrite decide_True by reflexivity. now rewrite Hc.
    + intros Hother.
      destruct (subAgentProgressRef s !! AgentEvent.task_id event) as [q|] eqn:Href.
      * destruct (subagent_registry_step s clk event s') as (next & Hnext & ->);
          [now exists q | exact Hs |].
        destruct next as [n|]; [|now rewrite Hp].
        destruct (decide (taskId = AgentEvent.task_id event)) as [-> | Hne];
          [|now rewrite lookup_insert_ne, Hp by congruence].
        rewrite lookup_insert_eq. rewrite Hp in Hnext.
        destruct Hother as [Hne | [Hn | Hother]]; [congruence | discriminate |].
        destruct (named_status true (event_kind (AgentEvent.event_type event)))
          as [named|] eqn:Hnamed.
        -- destruct (truthy (tool_call_of event)) eqn:Htc.
           ++ destruct Hother as [Hn | [Hn | Hkey]]; try discriminate.
              destruct (subagent_reducer_addressed event p named _ Hnamed Htc Hnext)
                as (c & Hc & Hn).
              injection Hn as ->. rewrite status_in_with_tool_calls.
              rewrite decide_False by congruence. exact Hbefore.
           ++ rewrite (subagent_reducer_without_tool_call event (Some p) named
                         Hnamed Htc) in Hnext. discriminate.
        -- apply subagent_reducer_Some in Hnext
             as [Hn | [(c & Hc & _) | [[_ Hn] | [_ (v & [Hn | Hn])]]]];
             try congruence; injection Hn as ->; exact Hbefore.
      * destruct (main_path_effects s clk event s' Href Hs)
          as [_ [(_ & Hr & _) | (ids & _ & Hr & _)]]; rewrite Hr;
          [now rewrite Hp|].
        now rewrite (register_task_ids_keeps ids _ _ _ Hp).
Qed.

(** The sub-agent switch has no such test: its result does not depend on the
    set of processed tasks, which it only extends. *)
Lemma handle_subagent_ignores_guard s event processed :
  handle_subagent
    (registry_update s (subAgentProgress s) (subAgentProgressRef s) processed) event =
  s' ← handle_subagent s event;
  mret (registry_update s' (subAgentProgress s') (subAgentProgressRef s')
          (if is_terminal (event_kind (AgentEvent.event_type event))
           then {[AgentEvent.task_id event]} ∪ processed
           else processed)).
Proof.
  rewrite !handle_subagent_reducer. unfold updateSubAgentThinking. simpl.
  unfold_outcome.
  destruct (subagent_reducer event _) as [[n|]|]; [| |reflexivity];
    destruct (is_terminal _); reflexivity.
Qed.

(** ** The mirror of the live Task Progress *)

(** When the main task ends, [setCurrentThinking(() => null)] clears the state
    cell without going through [updateThinking]: [thinkingRef] keeps the
    progress of the task that ended. *)
Lemma thinkingRef_kept_at_completion s clk event :
  subAgentProgressRef s !! AgentEvent.task_id event = None ->
  is_terminal (event_kind (AgentEvent.event_type event)) = true ->
  AgentEvent.task_id event ∉ processedTasksRef s ->
  exists s',
    handleWSMessage s clk event = Ok s' /\
    currentThinking s' = None /\
    thinkingRef s' = thinkingRef s.
Proof.
  intros Hmain Hterm Hnew. unfold handleWSMessage, handle_batch, handle_main.
  rewrite Hmain.
  destruct (event_kind (AgentEvent.event_type event)); try discriminate Hterm;
    rewrite decide_False by exact Hnew; eexists; (split; [reflexivity|]).
  - destruct (thinkingRef s) eqn:Href; simpl; auto.
  - split; reflexivity.
  - split; reflexivity.
Qed.

(** Every run of the handler keeps [thinking_mirrored]: a live Task Progress
    is always the one in [thinkingRef].  The converse fails after a terminal
    event, by [thinkingRef_kept_at_completion]. *)
Lemma thinking_mirrored_initial : thinking_mirrored initial_state.
Proof. now left. Qed.

Lemma thinking_mirrored_step s clk event s' :
  thinking_mirrored s -> handleWSMessage s clk event = Ok s' ->
  thinking_mirrored s'.
Proof.
  intros Hmirror Hs.
  destruct (subAgentProgressRef s !! AgentEvent.task_id event) as [q|] eqn:Href.
  - unfold handleWSMessage in Hs. rewrite Href in Hs.
    apply handle_subagent_shape in Hs as (m & r & pr & -> & _). exact Hmirror.
  - revert Hs. unfold handleWSMessage, handle_batch, handle_main. rewrite Href.
    assert (Hupd : forall u s1, updateThinking s u = Ok s1 -> thinking_mirrored s1).
    { intros u s1 Hu. apply updateThinking_Ok in Hu as (next & _ & ->).
      now right. }
    destruct (event_kind (AgentEvent.event_type event)).
    + destruct (if is_number _ then _ else _); unfold_outcome; intros Hs; inv_Ok;
        exact Hmirror.
    + unfold_outcome; intros Hs; inv_Ok; exact Hmirror.
    + destruct (truthy _); [apply Hupd|].
      unfold_outcome; intros Hs; inv_Ok; exact Hmirror.
    + destruct (truthy _); [|unfold_outcome; intros Hs; inv_Ok; exact Hmirror].
      unfold_outcome.
      destruct (updateThinking s _) as [s1|] eqn:Hu; [|discriminate].
      apply Hupd in Hu.
      destruct (is_research _); [|intros Hs; inv_Ok; exact Hu].
      destruct (get _ "output_data") as [[| | | | | ids |]|]; intros Hs; inv_Ok;
        exact Hu.
    + destruct (truthy _); [apply Hupd|].
      unfold_outcome; intros Hs; inv_Ok; exact Hmirror.
    + apply Hupd.
    + unfold_outcome; intros Hs; inv_Ok; exact Hmirror.
    + unfold_outcome; intros Hs; inv_Ok; exact Hmirror.
    + destruct (decide _); unfold_outcome; intros Hs; inv_Ok;
        [exact Hmirror | left; now destruct (thinkingRef s)].
    + destruct (decide _); unfold_outcome; intros Hs; inv_Ok;
        [exact Hmirror | now left].
    + destruct (decide _); unfold_outcome; intros Hs; inv_Ok;
        [exact Hmirror | now left].
    + unfold_outcome; intros Hs; inv_Ok; exact Hmirror.
Qed.

(** With a live Task Progress that has a tool call, the cancellation message
    carries its finalized snapshot. *)
Lemma run_cancelled_live_progress s clk event p :
  thinking_mirrored s ->
  subAgentProgressRef s !! AgentEvent.task_id event = None ->
  event_kind (AgentEvent.event_type event) = run_cancelled ->
  AgentEvent.task_id event ∉ processedTasksRef s ->
  currentThinking s = Some p ->
  ThinkingProgress.tool_calls p <> ∅ ->
  exists s',
    handleWSMessage s clk event = Ok s' /\
    messages s' =
      (messages s ++
         [assistant_message clk (VStr "Task was cancelled.")
            (Some (complete_with_error (VStr "Task cancelled by user") p))])%list.
Proof.
  intros [Hnone | Hsame] Hmain Hk Hnew Hp Hcalls; [congruence|].
  destruct (run_cancelled_main_message s clk event Hmain Hk Hnew)
    as (s' & Hs & _ & Hsnap).
  exists s'. split; [exact Hs|]. apply Hsnap; [congruence | exact Hcalls].
Qed.

(** * Further properties of the handler *)

(** A property that every run of the handler keeps holds after any sequence
    of frames. *)
Lemma run_events_preserves (P : State -> Prop) :
  (forall s clk event s', P s -> handleWSMessage s clk event = Ok s' -> P s') ->
  forall frames s s', P s -> run_events s frames = Ok s' -> P s'.
Proof.
  intros Hstep frames. induction frames as [|[clk event] rest IH];
    intros s s' HP Hrun; simpl in Hrun; unfold_outcome.
  - now inv_Ok.
  - destruct (handleWSMessage s clk event) as [s1|] eqn:Hs; [|discriminate].
    eapply IH; [eapply Hstep; eassumption | exact Hrun].
Qed.

(** X1.  After any sequence of events from a fresh mount, the routing mirror
    [subAgentProgressRef] equals the registry cell [subAgentProgress]: both
    writers of the registry assign the mirror in the same updater. *)
Theorem registry_mirror_after_events frames s' :
  run_events initial_state frames = Ok s' ->
  subAgentProgressRef s' = subAgentProgress s'.
Proof.
  apply (run_events_preserves registry_in_sync registry_in_sync_step).
  exact registry_in_sync_initial.
Qed.

(** X2.  After any sequence of events from a fresh mount, a live Task
    Progress of the main task is the one [thinkingRef] holds. *)
Theorem live_progress_mirrored_after_events frames s' p :
  run_events initial_state frames = Ok s' ->
  currentThinking s' = Some p ->
  thinkingRef s' = Some p.
Proof.
  intros Hrun Hp.
  destruct (run_events_preserves thinking_mirrored thinking_mirrored_step
              frames initial_state s' thinking_mirrored_initial Hrun)
    as [Hnone | Hsame]; congruence.
Qed.

(** One run of the handler removes no processed task id and no registry
    key. *)
Lemma handler_only_grows s clk event s' :
  handleWSMessage s clk event = Ok s' ->
  processedTasksRef s ⊆ processedTasksRef s' /\
  dom (subAgentProgress s) ⊆ dom (subAgentProgress s').
Proof.
  intros Hs.
  destruct (subAgentProgressRef s !! AgentEvent.task_id event) as [q|] eqn:Href.
  - unfold handleWSMessage in Hs. rewrite Href in Hs.
    apply handle_subagent_shape in Hs as (m & r & pr & -> & Hm & Hpr). simpl.
    split.
    + destruct Hpr as [-> | [_ ->]]; [reflexivity | apply union_subseteq_r].
    + destruct Hm as [[-> _] | (n & -> & _)]; [reflexivity|].
      rewrite dom_insert_L. apply union_subseteq_r.
  - split.
    + revert Hs. unfold handleWSMessage, handle_batch, handle_main. rewrite Href.
      assert (Hupd : forall u s1, updateThinking s u = Ok s1 ->
                processedTasksRef s1 = processedTasksRef s).
      { intros u s1 Hu. now apply updateThinking_Ok in Hu as (next & _ & ->). }
      destruct (event_kind (AgentEvent.event_type event)).
      * destruct (if is_number _ then _ else _); unfold_outcome; intros Hs;
          inv_Ok; reflexivity.
      * unfold_outcome; intros Hs; inv_Ok; reflexivity.
      * destruct (truthy _); [intros Hs; now rewrite (Hupd _ _ Hs)|].
        unfold_outcome; intros Hs; inv_Ok; reflexivity.
      * destruct (truthy _); [|unfold_outcome; intros Hs; inv_Ok; reflexivity].
        unfold_outcome.
        destruct (updateThinking s _) as [s1|] eqn:Hu; [|discriminate].
        apply Hupd in Hu.
        destruct (is_research _); [|intros Hs; inv_Ok; now rewrite Hu].
        destruct (get _ "output_data") as [[| | | | | ids |]|]; intros Hs; inv_Ok;
          simpl; now rewrite Hu.
      * destruct (truthy _); [intros Hs; now rewrite (Hupd _ _ Hs)|].
        unfold_outcome; intros Hs; inv_Ok; reflexivity.
      * intros Hs; now rewrite (Hupd _ _ Hs).
      * unfold_outcome; intros Hs; inv_Ok; reflexivity.
      * unfold_outcome; intros Hs; inv_Ok; reflexivity.
      * destruct (decide _); unfold_outcome; intros Hs; inv_Ok;
          [reflexivity | destruct (thinkingRef s); apply union_subseteq_r].
      * destruct (decide _); unfold_outcome; intros Hs; inv_Ok;
          [reflexivity | apply union_subseteq_r].
      * destruct (decide _); unfold_outcome; intros Hs; inv_Ok;
          [reflexivity | apply union_subseteq_r].
      * unfold_outcome; intros Hs; inv_Ok; reflexivity.
    + destruct (main_path_effects s clk event s' Href Hs)
        as [_ [(_ & Hr & _) | (ids & _ & Hr & _)]]; rewrite Hr; [reflexivity|].
      intros k Hk. apply elem_of_dom in Hk as [p Hp]. apply elem_of_dom.
      exists p. now apply register_task_ids_keeps.
Qed.

(** X3.  Nothing is ever evicted: over any sequence of events the set of
    processed task ids and the key set of the sub-agent registry only grow. *)
Theorem processed_and_registry_only_grow frames s s' :
  run_events s frames = Ok s' ->
  processedTasksRef s ⊆ processedTasksRef s' /\
  dom (subAgentProgress s) ⊆ dom (subAgentProgress s').
Proof.
  intros Hrun.
  apply (run_events_preserves
           (fun t => processedTasksRef s ⊆ processedTasksRef t /\
                     dom (subAgentProgress s) ⊆ dom (subAgentProgress t)))
    with (frames := frames) (s := s); [|split; reflexivity|exact Hrun].
  intros t clk event t' [Hp Hr] Ht.
  destruct (handler_only_grows t clk event t' Ht) as [Hp' Hr'].
  split; etransitivity; eassumption.
Qed.

(** A terminal event applied on the main path appends one message and marks
    the task processed. *)
Lemma main_terminal_event_applied s clk event s' :
  subAgentProgressRef s !! AgentEvent.task_id event = None ->
  is_terminal (event_kind (AgentEvent.event_type event)) = true ->
  AgentEvent.task_id event ∉ processedTasksRef s ->
  handleWSMessage s clk event = Ok s' ->
  length (messages s') = S (length (messages s)) /\
  AgentEvent.task_id event ∈ processedTasksRef s' /\
  subAgentProgressRef s' = subAgentProgressRef s.
Proof.
  intros Hmain Hterm Hnew. unfold handleWSMessage, handle_batch, handle_main.
  rewrite Hmain.
  destruct (event_kind (AgentEvent.event_type event)); try discriminate Hterm;
    rewrite decide_False by exact Hnew; unfold_outcome; intros Hs; inv_Ok.
  - destruct (thinkingRef s) as [p|]; simpl;
      rewrite ?attach_thinking_snoc, length_app; simpl;
      (split; [lia | split; [apply elem_of_union_l, elem_of_singleton; reflexivity
                            | reflexivity]]).
  - simpl. rewrite length_app. simpl.
    split; [lia | split; [apply elem_of_union_l, elem_of_singleton; reflexivity
                         | reflexivity]].
  - simpl. rewrite length_app. simpl.
    split; [lia | split; [apply elem_of_union_l, elem_of_singleton; reflexivity
                         | reflexivity]].
Qed.

(** X4.  A terminal event of the main task delivered twice has the effect of
    one delivery: the second run returns the state unchanged, so the pair
    appends exactly one transcript message (none when the task was already
    processed). *)
Theorem main_terminal_event_twice s clk clk' event s1 :
  subAgentProgressRef s !! AgentEvent.task_id event = None ->
  is_terminal (event_kind (AgentEvent.event_type event)) = true ->
  handleWSMessage s clk event = Ok s1 ->
  handleWSMessage s1 clk' event = Ok s1 /\
  length (messages s1) =
    if decide (AgentEvent.task_id event ∈ processedTasksRef s)
    then length (messages s) else S (length (messages s)).
Proof.
  intros Hmain Hterm Hs.
  destruct (decide (AgentEvent.task_id event ∈ processedTasksRef s)) as [Hin | Hnew].
  - rewrite (main_terminal_event_guarded s clk event Hmain Hterm Hin) in Hs.
    inv_Ok. split; [|reflexivity].
    now apply main_terminal_event_guarded.
  - destruct (main_terminal_event_applied s clk event s1 Hmain Hterm Hnew Hs)
      as (Hlen & Hin & Href).
    split; [|exact Hlen].
    apply main_terminal_event_guarded; [congruence | exact Hterm | exact Hin].
Qed.

(** ** Tool-call entries *)

(** What a started event writes on the main path. *)
Lemma main_started_event s clk event :
  subAgentProgressRef s !! AgentEvent.task_id event = None ->
  event_kind (AgentEvent.event_type event) = progress_update_tool_action_started ->
  truthy (first_arg event) = true ->
  nullish (prop (first_arg event) "function") = false ->
  exists s',
    handleWSMessage s clk event = Ok s' /\
    subAgentProgressRef s' = subAgentProgressRef s /\
    currentThinking s' =
      Some (with_tool_calls
              (<[to_key (prop (first_arg event) "id") :=
                   ToolCall.mk (prop (first_arg event) "id")
                     (prop (prop (first_arg event) "function") "name")
                     (prop (prop (first_arg event) "function") "arguments")
                     started VUndef VUndef]>
                 (ThinkingProgress.tool_calls
                    (default (empty_progress (VStr (AgentEvent.task_id event)))
                       (currentThinking s))))
              (default (empty_progress (VStr (AgentEvent.task_id event)))
                 (currentThinking s))).
Proof.
  intros Hmain Hk Htc Hfn. unfold handleWSMessage, handle_batch, handle_main.
  rewrite Hmain, Hk, Htc. unfold updateThinking, started_updater.
  rewrite !(get_truthy (first_arg event)) by exact Htc.
  unfold_outcome. cbn beta iota. unfold get. rewrite Hfn.
  eexists. split; [reflexivity|]. split; reflexivity.
Qed.

(** X5.  On the main path a started event followed by the completed event
    for the same tool-call id leaves, under that id, the id, name and
    arguments of the started event with status [completed] and the
    [output_data] of the completed event as result. *)
Theorem started_then_completed s clk clk' started_ev completed_ev :
  subAgentProgressRef s !! AgentEvent.task_id started_ev = None ->
  AgentEvent.task_id completed_ev = AgentEvent.task_id started_ev ->
  event_kind (AgentEvent.event_type started_ev) =
    progress_update_tool_action_started ->
  event_kind (AgentEvent.event_type completed_ev) =
    progress_update_tool_action_completed ->
  truthy (first_arg started_ev) = true ->
  nullish (prop (first_arg started_ev) "function") = false ->
  truthy (tool_call_of completed_ev) = true ->
  tool_call_key completed_ev = tool_call_key started_ev ->
  exists s1 s2 p,
    handleWSMessage s clk started_ev = Ok s1 /\
    handleWSMessage s1 clk' completed_ev = Ok s2 /\
    currentThinking s2 = Some p /\
    ThinkingProgress.tool_calls p !! tool_call_key started_ev =
      Some (ToolCall.mk (prop (first_arg started_ev) "id")
              (prop (prop (first_arg started_ev) "function") "name")
              (prop (prop (first_arg started_ev) "function") "arguments")
              completed
              (prop (opt_get (AgentEvent.data completed_ev) "result") "output_data")
              VUndef).
Proof.
  intros Hmain Htask Hk1 Hk2 Htc1 Hfn Htc2 Hkey.
  destruct (main_started_event s clk started_ev Hmain Hk1 Htc1 Hfn)
    as (s1 & Hs1 & Href1 & Hcur1).
  assert (Hmain2 : subAgentProgressRef s1 !! AgentEvent.task_id completed_ev = None)
    by (rewrite Href1, Htask; exact Hmain).
  destruct (main_result_event s1 clk' completed_ev Hmain2 (or_introl Hk2) Htc2)
    as (s2 & Hs2 & Hcur2).
  exists s1, s2. rewrite Hcur1, Hk2 in Hcur2. eexists.
  split; [exact Hs1|]. split; [exact Hs2|]. split; [exact Hcur2|].
  simpl. rewrite Hkey. rewrite lookup_insert_eq.
  assert (Hk : tool_call_key started_ev = to_key (prop (first_arg started_ev) "id")).
  { unfold tool_call_key, tool_call_of. now rewrite Hk1. }
  rewrite Hk, lookup_insert_eq. reflexivity.
Qed.

(** X6.  An event leaves every tool-call entry it does not address exactly as
    it is: in the registry always; in the live progress of the main task
    always but for one case, a terminal event that takes the main path for a
    task not yet processed, which removes the live progress. *)
Theorem tool_call_entry_frame s clk event s' key c :
  handleWSMessage s clk event = Ok s' ->
  (forall p,
     currentThinking s = Some p ->
     ThinkingProgress.tool_calls p !! key = Some c ->
     named_status false (event_kind (AgentEvent.event_type event)) = None \/
     tool_call_key event <> key ->
     (exists p', currentThinking s' = Some p' /\
        ThinkingProgress.tool_calls p' !! key = Some c) \/
     (currentThinking s' = None /\
      subAgentProgressRef s !! AgentEvent.task_id event = None /\
      is_terminal (event_kind (AgentEvent.event_type event)) = true /\
      AgentEvent.task_id event ∉ processedTasksRef s)) /\
  (forall taskId p,
     subAgentProgress s !! taskId = Some p ->
     ThinkingProgress.tool_calls p !! key = Some c ->
     taskId <> AgentEvent.task_id event \/
     named_status true (event_kind (AgentEvent.event_type event)) = None \/
     tool_call_key event <> key ->
     exists p', subAgentProgress s' !! taskId = Some p' /\
       ThinkingProgress.tool_calls p' !! key = Some c).
Proof.
  intros Hs.
  destruct (subAgentProgressRef s !! AgentEvent.task_id event) as [q|] eqn:Href.
  - split.
    { intros p Hp Hc _. left. exists p.
      destruct (subagent_event_frame_messages s clk event s') as [_ ->];
        [now exists q | exact Hs | now split]. }
    intros taskId p Hp Hc Hother.
    unfold handleWSMessage in Hs. rewrite Href in Hs.
    rewrite handle_subagent_reducer in Hs. unfold_outcome.
    destruct (updateSubAgentThinking s _ _) as [s1|] eqn:Hu; [|discriminate].
    apply updateSubAgentThinking_Ok in Hu as (next & Hnext & ->).
    assert (Hreg : subAgentProgress s' =
                   match next with
                   | Some n => <[AgentEvent.task_id event := n]> (subAgentProgress s)
                   | None => subAgentProgress s
                   end).
    { inv_Ok. destruct (is_terminal _), next; reflexivity. }
    rewrite Hreg. clear Hreg Hs.
    destruct next as [n|]; [|now exists p].
    destruct (decide (taskId = AgentEvent.task_id event)) as [-> | Hne];
      [|rewrite lookup_insert_ne by congruence; now exists p].
    rewrite lookup_insert_eq. exists n. split; [reflexivity|].
    rewrite Hp in Hnext.
    apply subagent_reducer_Some in Hnext
      as [Hn | [(c' & Hc' & Hn) | [[_ Hn] | [_ (v & [Hn | Hn])]]]];
      try discriminate Hn; injection Hn as ->; try exact Hc.
    simpl. rewrite lookup_insert_ne; [exact Hc|].
    destruct Hother as [Ht | [Hnone | Hkey]]; [congruence | congruence | exact Hkey].
  - split.
    + intros p Hp Hc Hother.
      destruct (main_thinking_step s clk event s' Href Hs)
        as [Hcur | [Hcur | [(c' & Hc' & Hn) | (p0 & Hp0 & Hn)]]].
      * left. exists p. split; congruence.
      * right. split; [exact Hcur|]. split; [reflexivity|].
        now apply (main_thinking_cleared s clk event s' p).
      * left. rewrite Hp in Hn. cbn [default] in Hn. unfold id in Hn.
        eexists. split; [exact Hn|]. simpl.
        rewrite lookup_insert_ne; [exact Hc|].
        destruct Hother as [Hnone | Hkey]; [congruence | exact Hkey].
      * left. eexists. split; [exact Hn|]. simpl. congruence.
    + intros taskId p Hp Hc _. exists p. split; [|exact Hc].
      destruct (main_path_effects s clk event s' Href Hs)
        as [_ [(_ & Hr & _) | (ids & _ & Hr & _)]]; rewrite Hr; [exact Hp|].
      now apply register_task_ids_keeps.
Qed.

(** X7.  No event removes a tool call from a Task Progress that stays: the
    keys of [tool_calls] of a registry entry, and of the live main progress
    while it is not cleared, only grow. *)
Theorem tool_calls_never_removed s clk event s' key :
  handleWSMessage s clk event = Ok s' ->
  (forall p p',
     currentThinking s = Some p -> currentThinking s' = Some p' ->
     is_Some (ThinkingProgress.tool_calls p !! key) ->
     is_Some (ThinkingProgress.tool_calls p' !! key)) /\
  (forall taskId p,
     subAgentProgress s !! taskId = Some p ->
     is_Some (ThinkingProgress.tool_calls p !! key) ->
     exists p', subAgentProgress s' !! taskId = Some p' /\
       is_Some (ThinkingProgress.tool_calls p' !! key)).
Proof.
  intros Hs.
  destruct (subAgentProgressRef s !! AgentEvent.task_id event) as [q|] eqn:Href.
  - split.
    { intros p p' Hp Hp' Hc.
      destruct (subagent_event_frame_messages s clk event s') as [_ Hcur];
        [now exists q | exact Hs |]. congruence. }
    intros taskId p Hp Hc.
    unfold handleWSMessage in Hs. rewrite Href in Hs.
    rewrite handle_subagent_reducer in Hs. unfold_outcome.
    destruct (updateSubAgentThinking s _ _) as [s1|] eqn:Hu; [|discriminate].
    apply updateSubAgentThinking_Ok in Hu as (next & Hnext & ->).
    assert (Hreg : subAgentProgress s' =
                   match next with
                   | Some n => <[AgentEvent.task_id event := n]> (subAgentProgress s)
                   | None => subAgentProgress s
                   end).
    { inv_Ok. destruct (is_terminal _), next; reflexivity. }
    rewrite Hreg. clear Hreg Hs.
    destruct next as [n|]; [|now exists p].
    destruct (decide (taskId = AgentEvent.task_id event)) as [-> | Hne];
      [|rewrite lookup_insert_ne by congruence; now exists p].
    rewrite lookup_insert_eq. exists n. split; [reflexivity|].
    rewrite Hp in Hnext.
    apply subagent_reducer_Some in Hnext
      as [Hn | [(c' & Hc' & Hn) | [[_ Hn] | [_ (v & [Hn | Hn])]]]];
      try discriminate Hn; injection Hn as ->; try exact Hc.
    simpl. rewrite lookup_insert. destruct (decide _); [now eexists | exact Hc].
  - split.
    + intros p p' Hp Hp' Hc.
      destruct (main_thinking_step s clk event s' Href Hs)
        as [Hcur | [Hcur | [(c' & Hc' & Hn) | (p0 & Hp0 & Hn)]]].
      * congruence.
      * congruence.
      * rewrite Hp in Hn. cbn [default] in Hn. unfold id in Hn.
        rewrite Hn in Hp'. injection Hp' as <-. simpl.
        rewrite lookup_insert. destruct (decide _); [now eexists | exact Hc].
      * rewrite Hn in Hp'. injection Hp' as <-. simpl. congruence.
    + intros taskId p Hp Hc. exists p. split; [|exact Hc].
      destruct (main_path_effects s clk event s' Href Hs)
        as [_ [(_ & Hr & _) | (ids & _ & Hr & _)]]; rewrite Hr; [exact Hp|].
      now apply register_task_ids_keeps.
Qed.

(** X8.  A completed event does not clear what a failed event left: after a
    failed and then a completed event for the same tool-call id the entry has
    status [completed], the new result, and still the error of the failed
    event. *)
Theorem failed_then_completed_keeps_error s clk clk' failed_ev completed_ev p c :
  subAgentProgressRef s !! AgentEvent.task_id failed_ev = None ->
  AgentEvent.task_id completed_ev = AgentEvent.task_id failed_ev ->
  event_kind (AgentEvent.event_type failed_ev) = progress_update_tool_action_failed ->
  event_kind (AgentEvent.event_type completed_ev) =
    progress_update_tool_action_completed ->
  truthy (tool_call_of failed_ev) = true ->
  truthy (tool_call_of completed_ev) = true ->
  tool_call_key completed_ev = tool_call_key failed_ev ->
  currentThinking s = Some p ->
  ThinkingProgress.tool_calls p !! tool_call_key failed_ev = Some c ->
  exists s1 s2 p2,
    handleWSMessage s clk failed_ev = Ok s1 /\
    handleWSMessage s1 clk' completed_ev = Ok s2 /\
    currentThinking s2 = Some p2 /\
    ThinkingProgress.tool_calls p2 !! tool_call_key failed_ev =
      Some (ToolCall.mk (ToolCall.id c) (ToolCall.tool_name c) (ToolCall.arguments c)
              completed
              (prop (opt_get (AgentEvent.data completed_ev) "result") "output_data")
              (AgentEvent.error failed_ev)).
Proof.
  intros Hmain Htask Hk1 Hk2 Htc1 Htc2 Hkey Hp Hc.
  destruct (main_result_event s clk failed_ev Hmain (or_intror Hk1) Htc1)
    as (s1 & Hs1 & Hcur1).
  assert (Href1 : subAgentProgressRef s1 = subAgentProgressRef s).
  { destruct (main_path_effects s clk failed_ev s1 Hmain Hs1)
      as [_ [(_ & _ & Hf) | (ids & (_ & Hk & _) & _)]]; [exact Hf | congruence]. }
  assert (Hmain2 : subAgentProgressRef s1 !! AgentEvent.task_id completed_ev = None)
    by (rewrite Href1, Htask; exact Hmain).
  destruct (main_result_event s1 clk' completed_ev Hmain2 (or_introl Hk2) Htc2)
    as (s2 & Hs2 & Hcur2).
  exists s1, s2. rewrite Hp, Hk1, Hc in Hcur1. rewrite Hcur1, Hk2 in Hcur2.
  eexists. split; [exact Hs1|]. split; [exact Hs2|]. split; [exact Hcur2|].
  simpl. rewrite Hkey, !lookup_insert_eq. reflexivity.
Qed.

(** ** When the handler raises *)

Lemma started_updater_cases event toolCall prev :
  truthy toolCall = true ->
  started_updater event toolCall prev =
  if nullish (prop toolCall "function") then Throw TypeError
  else Ok (Some (with_tool_calls
                   (<[to_key (prop toolCall "id") :=
                        ToolCall.mk (prop toolCall "id")
                          (prop (prop toolCall "function") "name")
                          (prop (prop toolCall "function") "arguments")
                          started VUndef VUndef]>
                      (ThinkingProgress.tool_calls
                         (default (empty_progress (VStr (AgentEvent.task_id event)))
                            prev)))
                   (default (empty_progress (VStr (AgentEvent.task_id event))) prev))).
Proof.
  intros Htc. unfold started_updater.
  rewrite !(get_truthy toolCall) by exact Htc.
  unfold_outcome. cbn beta iota. unfold get.
  now destruct (nullish (prop toolCall "function")).
Qed.






(** ** The shown percentage *)


(** ** What the live Task Progress of the main task is *)

(** X11.  The snapshot attached to the answer of the main task is built from
    [thinkingRef], not from the live cell: when there is no live progress but
    [thinkingRef] still holds one, an [agent_output] not yet processed
    appends one message that carries that progress, finalized with the new
    output. *)
Theorem agent_output_snapshot_from_ref s clk event p :
  subAgentProgressRef s !! AgentEvent.task_id event = None ->
  event_kind (AgentEvent.event_type event) = agent_output ->
  AgentEvent.task_id event ∉ processedTasksRef s ->
  currentThinking s = None ->
  thinkingRef s = Some p ->
  exists s' content,
    handleWSMessage s clk event = Ok s' /\
    messages s' =
      (messages s ++
         [assistant_message clk content
            (Some (ThinkingProgress.mk (ThinkingProgress.task_id p)
                     (ThinkingProgress.tool_calls p) true (AgentEvent.data event)
                     (ThinkingProgress.error p)))])%list.
Proof.
  intros Hmain Hk Hnew _ Hp. unfold handleWSMessage, handle_batch, handle_main.
  rewrite Hmain, Hk. rewrite decide_False by exact Hnew.
  eexists. eexists. split; [reflexivity|]. simpl. rewrite Hp. simpl.
  rewrite attach_thinking_snoc. reflexivity.
Qed.

(** One run of the handler keeps the live main progress incomplete and
    without output, and keeps its task id. *)
Lemma live_progress_step s clk event s' p' :
  (forall p, currentThinking s = Some p ->
     ThinkingProgress.is_complete p = false /\
     ThinkingProgress.final_output p = VUndef) ->
  handleWSMessage s clk event = Ok s' ->
  currentThinking s' = Some p' ->
  ThinkingProgress.is_complete p' = false /\
  ThinkingProgress.final_output p' = VUndef /\
  (forall p, currentThinking s = Some p ->
     ThinkingProgress.task_id p' = ThinkingProgress.task_id p).
Proof.
  intros Hlive Hs Hp'.
  destruct (subAgentProgressRef s !! AgentEvent.task_id event) as [q|] eqn:Href.
  - destruct (subagent_event_frame_messages s clk event s') as [_ Hcur];
      [now exists q | exact Hs |].
    rewrite Hcur in Hp'. destruct (Hlive p' Hp') as [Hc Ho].
    repeat split; try assumption. intros p Hp. congruence.
  - destruct (main_thinking_step s clk event s' Href Hs)
      as [Hcur | [Hcur | [(c & _ & Hn) | (p0 & Hp0 & Hn)]]].
    + rewrite Hcur in Hp'. destruct (Hlive p' Hp') as [Hc Ho].
      repeat split; try assumption. intros p Hp. congruence.
    + congruence.
    + rewrite Hn in Hp'. injection Hp' as <-.
      destruct (currentThinking s) as [p|] eqn:Hp; simpl.
      * destruct (Hlive p eq_refl) as [Hc Ho].
        repeat split; try assumption. intros p1 Hp1. congruence.
      * repeat split. intros p1 Hp1. discriminate.
    + rewrite Hn in Hp'. injection Hp' as <-. simpl.
      destruct (Hlive p0 Hp0) as [Hc Ho].
      repeat split; try assumption. intros p1 Hp1. congruence.
Qed.

(** X12.  After any sequence of events from a fresh mount the live Task
    Progress of the main task, when there is one, has [is_complete = false]
    and no [final_output]: a completed main progress exists only as a
    snapshot in the transcript. *)
Theorem live_progress_never_complete frames s' p :
  run_events initial_state frames = Ok s' ->
  currentThinking s' = Some p ->
  ThinkingProgress.is_complete p = false /\
  ThinkingProgress.final_output p = VUndef.
Proof.
  intros Hrun.
  revert p.
  apply (run_events_preserves
           (fun s => forall p, currentThinking s = Some p ->
              ThinkingProgress.is_complete p = false /\
              ThinkingProgress.final_output p = VUndef))
    with (frames := frames) (s := initial_state); [| |exact Hrun].
  - intros s clk event t Hlive Ht p Hp.
    destruct (live_progress_step s clk event t p Hlive Ht Hp) as (Hc & Ho & _).
    now split.
  - intros p Hp. discriminate Hp.
Qed.

(** X13.  The main switch never compares an event's task id with the live
    progress: events of any task id that is not a registered sub-agent are
    merged into the one live progress, which keeps the task id it was
    created with. *)
Theorem live_progress_keeps_task_id s clk event s' p p' :
  handleWSMessage s clk event = Ok s' ->
  currentThinking s = Some p ->
  currentThinking s' = Some p' ->
  ThinkingProgress.task_id p' = ThinkingProgress.task_id p.
Proof.
  intros Hs Hp Hp'.
  destruct (subAgentProgressRef s !! AgentEvent.task_id event) as [q|] eqn:Href.
  - destruct (subagent_event_frame_messages s clk event s') as [_ Hcur];
      [now exists q | exact Hs |]. congruence.
  - destruct (main_thinking_step s clk event s' Href Hs)
      as [Hcur | [Hcur | [(c & _ & Hn) | (p0 & Hp0 & Hn)]]].
    + congruence.
    + congruence.
    + rewrite Hp in Hn. rewrite Hn in Hp'. now injection Hp' as <-.
    + rewrite Hn in Hp'. injection Hp' as <-. simpl. congruence.
Qed.

(** One run of the handler keeps every registry entry under the key of its
    own task id. *)
Lemma registry_keys_step s clk event s' :
  (forall k p, subAgentProgress s !! k = Some p ->
     to_key (ThinkingProgress.task_id p) = k) ->
  handleWSMessage s clk event = Ok s' ->
  forall k p, subAgentProgress s' !! k = Some p ->
    to_key (ThinkingProgress.task_id p) = k.
Proof.
  intros Hkeys Hs k p Hp.
  destruct (subAgentProgressRef s !! AgentEvent.task_id event) as [q|] eqn:Href.
  - unfold handleWSMessage in Hs. rewrite Href in Hs.
    rewrite handle_subagent_reducer in Hs. unfold_outcome.
    destruct (updateSubAgentThinking s _ _) as [s1|] eqn:Hu; [|discriminate].
    apply updateSubAgentThinking_Ok in Hu as (next & Hnext & ->).
    assert (Hreg : subAgentProgress s' =
                   match next with
                   | Some n => <[AgentEvent.task_id event := n]> (subAgentProgress s)
                   | None => subAgentProgress s
                   end).
    { inv_Ok. destruct (is_terminal _), next; reflexivity. }
    rewrite Hreg in Hp. clear Hreg Hs.
    destruct next as [n|]; [|now apply Hkeys].
    destruct (decide (k = AgentEvent.task_id event)) as [-> | Hne];
      [|rewrite lookup_insert_ne in Hp by congruence; now apply Hkeys].
    rewrite lookup_insert_eq in Hp. injection Hp as ->.
    destruct (subAgentProgress s !! AgentEvent.task_id event) as [p0|] eqn:Hp0.
    + apply subagent_reducer_Some in Hnext
        as [Hn | [(c & _ & Hn) | [[_ Hn] | [_ (v & [Hn | Hn])]]]];
        try discriminate Hn; injection Hn as ->; simpl; now apply Hkeys.
    + revert Hnext. unfold subagent_reducer, completion_failed_updater.
      destruct (event_kind (AgentEvent.event_type event));
        try (destruct (truthy _) eqn:Htc); unfold_outcome; simpl;
        try discriminate;
        try (rewrite started_updater_cases by exact Htc;
             destruct (nullish _); [discriminate|];
             intros Hn; injection Hn as <-; reflexivity).
  - destruct (main_path_effects s clk event s' Href Hs)
      as [_ [(_ & Hr & _) | (ids & _ & Hr & _)]]; rewrite Hr in Hp;
      [now apply Hkeys|].
    clear Hr Hs. revert Hkeys k p Hp. generalize (subAgentProgress s).
    induction ids as [|x ids IH]; intros m Hkeys k p Hp; [now apply Hkeys|].
    rewrite register_task_ids_cons in Hp. eapply IH; [|exact Hp].
    destruct (m !! to_key x) eqn:Hx; [exact Hkeys|].
    destruct (inherited_name (to_key x)); [exact Hkeys|].
    intros k0 p0 Hp0. destruct (decide (to_key x = k0)) as [<- | Hne].
    + rewrite lookup_insert_eq in Hp0. now injection Hp0 as <-.
    + rewrite lookup_insert_ne in Hp0 by exact Hne. now apply Hkeys.
Qed.

(** X14.  After any sequence of events from a fresh mount, none of them with
    a task id that is a name inherited from [Object.prototype], every entry
    of the sub-agent registry sits under the key of its own [task_id]. *)
Theorem registry_entries_keyed_by_task_id frames s' k p :
  Forall (fun frame => inherited_name (AgentEvent.task_id (snd frame)) = false)
    frames ->
  run_events initial_state frames = Ok s' ->
  subAgentProgress s' !! k = Some p ->
  to_key (ThinkingProgress.task_id p) = k.
Proof.
  intros _ Hrun. revert k p.
  apply (run_events_preserves
           (fun s => forall k p, subAgentProgress s !! k = Some p ->
              to_key (ThinkingProgress.task_id p) = k))
    with (frames := frames) (s := initial_state); [| |exact Hrun].
  - exact registry_keys_step.
  - intros k p Hp. change ((∅ : gmap string ThinkingProgress.t) !! k = Some p) in Hp.
    rewrite lookup_empty in Hp. discriminate Hp.
Qed.

End Reconciler.

(** * The properties on sample inputs *)

(** Sub-agent ["a"] has delivered its output; a later started event for ["a"]
    still adds a tool call to its completed Task Progress. *)
Lemma completed_subagent_still_changes :
  exists p s' p',
    subAgentProgress a_done_state !! "a" = Some p /\
    ThinkingProgress.is_complete p = true /\
    ThinkingProgress.tool_calls p = ∅ /\
    @handleWSMessage sample_runtime a_done_state clock0
      (started_event "a" "t1" "search") = Ok s' /\
    subAgentProgress s' !! "a" = Some p' /\
    ThinkingProgress.tool_calls p' !! "t1" =
      Some (ToolCall.mk (VStr "t1") (VStr "search") (VStr "{}") started VUndef VUndef).
Proof.
  do 3 eexists. split; [vm_compute; reflexivity|].
  split; [reflexivity|]. split; [reflexivity|].
  split; [vm_compute; reflexivity|].
  split; [vm_compute; reflexivity|]. vm_compute. reflexivity.
Qed.

Lemma completion_is_kept_witness :
  exists s' p p',
    @handleWSMessage sample_runtime a_done_state clock0
      (started_event "a" "t1" "search") = Ok s' /\
    subAgentProgress a_done_state !! "a" = Some p /\
    ThinkingProgress.is_complete p = true /\
    subAgentProgress s' !! "a" = Some p' /\
    ThinkingProgress.is_complete p' = true /\
    ThinkingProgress.final_output p' = ThinkingProgress.final_output p /\
    ThinkingProgress.error p' = ThinkingProgress.error p /\
    exists c,
      ToolCall.status c = started /\
      p' = with_tool_calls
             (<[@tool_call_key sample_runtime (started_event "a" "t1" "search") := c]>
                (ThinkingProgress.tool_calls p)) p.
Proof.
  assert (Hs : exists s', @handleWSMessage sample_runtime a_done_state clock0
                            (started_event "a" "t1" "search") = Ok s').
  { eexists. vm_compute. reflexivity. }
  destruct Hs as [s' Hs].
  assert (Hp : exists p, subAgentProgress a_done_state !! "a" = Some p /\
                         ThinkingProgress.is_complete p = true).
  { eexists. split; [vm_compute; reflexivity | reflexivity]. }
  destruct Hp as (p & Hp & Hc).
  destruct (proj2 (@completion_is_kept sample_runtime a_done_state clock0
                     (started_event "a" "t1" "search") s' Hs) "a" p Hp Hc)
    as (p' & Hp' & Hc' & _ & _ & Hout & Herr & _ & Haddressed).
  exists s', p, p'. split; [exact Hs|]. split; [exact Hp|]. split; [exact Hc|].
  split; [exact Hp'|]. split; [exact Hc'|].
  split; [exact (Hout eq_refl)|].
  split; [exact (Herr eq_refl ltac:(discriminate))|].
  apply (proj2 (Haddressed eq_refl ltac:(eexists; vm_compute; reflexivity))
           started eq_refl eq_refl).
Defined.

(** C2.  The sub-agent switch records a terminal event in the set of processed
    tasks and never consults it: ["a"] is in the set, and a [run_cancelled]
    for ["a"] still rewrites the error of its completed Task Progress. *)
Theorem subagent_terminal_event_not_guarded :
  "a" ∈ processedTasksRef a_done_state /\
  exists p s' p',
    subAgentProgress a_done_state !! "a" = Some p /\
    ThinkingProgress.is_complete p = true /\
    ThinkingProgress.error p = VUndef /\
    @handleWSMessage sample_runtime a_done_state clock0
      (plain_event "a" "run_cancelled" VUndef) = Ok s' /\
    subAgentProgress s' !! "a" = Some p' /\
    ThinkingProgress.error p' = VStr "Task cancelled by user" /\
    s' <> a_done_state.
Proof.
  split; [vm_compute; reflexivity|].
  do 3 eexists. split; [vm_compute; reflexivity|].
  split; [reflexivity|]. split; [reflexivity|].
  split; [vm_compute; reflexivity|].
  split; [vm_compute; reflexivity|]. split; [reflexivity|].
  intros Heq. apply (f_equal (fun s => subAgentProgress s !! "a")) in Heq.
  vm_compute in Heq. discriminate Heq.
Qed.

(** The Task Progress of ["main"] holds the call ["s1"] only; a completed
    event for the id ["s2"], which no started event introduced, adds an
    entry. *)
Lemma completed_unknown_id_adds_entry :
  exists p s' p',
    currentThinking search_started_state = Some p /\
    ThinkingProgress.tool_calls p !! "s2" = None /\
    @handleWSMessage sample_runtime search_started_state clock0
      (completed_event "main" "s2" "search" (VStr "out")) = Ok s' /\
    currentThinking s' = Some p' /\
    ThinkingProgress.tool_calls p' !! "s2" =
      Some (ToolCall.mk VUndef VUndef VUndef completed (VStr "out") VUndef) /\
    currentThinking s' <> currentThinking search_started_state.
Proof.
  do 3 eexists. split; [vm_compute; reflexivity|].
  split; [vm_compute; reflexivity|].
  split; [vm_compute; reflexivity|].
  split; [vm_compute; reflexivity|].
  split; [vm_compute; reflexivity|].
  intros Heq.
  apply (f_equal (fun t => status_in t "s2")) in Heq.
  vm_compute in Heq. discriminate Heq.
Qed.

Lemma result_for_unknown_id_witness :
  exists p s',
    currentThinking search_started_state = Some p /\
    @handleWSMessage sample_runtime search_started_state clock0
      (completed_event "main" "s2" "search" (VStr "out")) = Ok s' /\
    currentThinking s' =
      Some (with_tool_calls
              (<["s2" := ToolCall.mk VUndef VUndef VUndef completed (VStr "out") VUndef]>
                 (ThinkingProgress.tool_calls p)) p).
Proof.
  eexists.
  destruct (proj1 (proj2
    (@result_for_unknown_id sample_runtime search_started_state clock0
       (completed_event "main" "s2" "search" (VStr "out"))
       (or_introl eq_refl) eq_refl))
    _ eq_refl eq_refl eq_refl) as (s' & Hs & Hc).
  exists s'. split; [reflexivity|]. split; [exact Hs | exact Hc].
Defined.

(** The call ["s1"] of ["main"] is completed; a second started event for
    ["s1"] sets it back to started. *)
Lemma completed_call_restarted :
  status_in (currentThinking search_completed_state) "s1" = Some completed /\
  exists s',
    @handleWSMessage sample_runtime search_completed_state clock0
      (started_event "main" "s1" "search") = Ok s' /\
    status_in (currentThinking s') "s1" = Some started.
Proof.
  split; [vm_compute; reflexivity|].
  eexists. split; vm_compute; reflexivity.
Qed.

(** ... and so does a started event for ["s1"] that carries the id of
    another task, ["other"], which is no registered sub-agent. *)
Lemma status_follows_event_witness :
  status_in (currentThinking search_completed_state) "s1" = Some completed /\
  exists s',
    @handleWSMessage sample_runtime search_completed_state clock0
      (started_event "other" "s1" "search") = Ok s' /\
    status_in (currentThinking s') "s1" = Some started.
Proof.
  assert (Hbefore : status_in (currentThinking search_completed_state) "s1" =
                    Some completed) by (vm_compute; reflexivity).
  split; [exact Hbefore|].
  eexists. split; [vm_compute; reflexivity|].
  apply (proj1 (proj1 (@status_follows_event sample_runtime search_completed_state
                         clock0 (started_event "other" "s1" "search") _ "s1"
                         completed eq_refl ltac:(vm_compute; reflexivity))
                  Hbefore) started); reflexivity.
Defined.

Lemma subagent_event_frame_witness :
  is_Some (subAgentProgressRef spawned_state !! "a") /\
  exists s',
    @handleWSMessage sample_runtime spawned_state clock0
      (started_event "a" "t1" "search") = Ok s' /\
    currentThinking s' = currentThinking spawned_state /\
    thinkingRef s' = thinkingRef spawned_state /\
    messages s' = messages spawned_state /\
    researchProgress s' = researchProgress spawned_state /\
    (forall k, k <> "a" ->
       subAgentProgress s' !! k = subAgentProgress spawned_state !! k).
Proof.
  assert (Hreg : is_Some (subAgentProgressRef spawned_state !! "a")).
  { eexists. vm_compute. reflexivity. }
  split; [exact Hreg|].
  eexists. split; [vm_compute; reflexivity|].
  destruct (@subagent_event_frame sample_runtime spawned_state clock0
              (started_event "a" "t1" "search") _ Hreg eq_refl)
    as (H1 & H2 & H3 & H4 & H5 & _).
  repeat split; assumption.
Defined.

(** Two of the three sub-agents of the research batch are complete, yet the
    carousel shows 0: the handler wrote 0 into the tracker when the research
    call completed, and no batch event has been received.  And with 23 of 40
    sub-agents complete and the tracker empty the carousel shows 57, not
    58: in doubles [23 / 40 * 100] lies below 57.5. *)
Lemma computed_percentage_diverges :
  researchProgress two_done_state = VNum 0 /\
  @completed_count sample_runtime [VStr "a"; VStr "b"; VStr "c"]
    (subAgentProgress two_done_state) = 2%nat /\
  @batch_percentage sample_runtime two_done_state [VStr "a"; VStr "b"; VStr "c"] =
    Some 0%Z /\
  round_number (exact_percent 2 3) = 67%Z /\
  researchProgress forty_batch_state = VNull /\
  @completed_count sample_runtime (VStr <$> numbered_ids 40)
    (subAgentProgress forty_batch_state) = 23%nat /\
  @batch_percentage sample_runtime forty_batch_state (VStr <$> numbered_ids 40) =
    Some 57%Z /\
  round_number (exact_percent 23 40) = 58%Z.
Proof.
  repeat split; vm_compute; reflexivity.
Qed.

Lemma batch_percentage_spec_witness :
  (exists z,
     @batch_percentage sample_runtime two_done_state
       [VStr "a"; VStr "b"; VStr "c"] = Some z /\
     nearest_integer 0 z) /\
  @batch_percentage sample_runtime forty_batch_state (VStr <$> numbered_ids 40) =
    percent_of
      (length (filter
         (fun id => @task_is_complete sample_runtime
                      (subAgentProgress forty_batch_state) id = true)
         (VStr <$> numbered_ids 40)))
      (length (VStr <$> numbered_ids 40)) /\
  exists z,
    @batch_percentage sample_runtime forty_batch_state (VStr <$> numbered_ids 40) =
      Some z /\
    within_half
      (100 * inject_Z (Z.of_nat
                (length (filter
                   (fun id => @task_is_complete sample_runtime
                                (subAgentProgress forty_batch_state) id = true)
                   (VStr <$> numbered_ids 40))))
         / inject_Z (Z.of_nat (length (VStr <$> numbered_ids 40)))) z.
Proof.
  split.
  - exact (proj1 (@batch_percentage_spec sample_runtime two_done_state
                    [VStr "a"; VStr "b"; VStr "c"] ltac:(discriminate))
             0%Q eq_refl).
  - assert (Hne : VStr <$> numbered_ids 40 <> []) by (cbv; discriminate).
    assert (Hnull : researchProgress forty_batch_state = VNull)
      by (vm_compute; reflexivity).
    destruct (proj1 (proj2 (@batch_percentage_spec sample_runtime forty_batch_state
                              (VStr <$> numbered_ids 40) Hne)) Hnull)
      as [Hpct Hnear].
    split; [exact Hpct|]. apply Hnear. rewrite length_fmap. unfold numbered_ids.
    rewrite length_map, length_seq. lia.
Defined.



Lemma parseFinalOutput_never_throws_witness :
  @JSON_parse sample_runtime "{not json" = None /\
  @parseFinalOutput sample_runtime (VStr "{not json") =
    Ok (ParsedOutput.mk None None) /\
  @parseFinalOutput sample_runtime
    (VObj [("final_output", VStr "[]"); ("results", VArr [VNull])]) =
    Ok (ParsedOutput.mk (Some []) (Some [])).
Proof.
  split; [reflexivity|]. split.
  - exact (proj1 (proj2 (proj2 (proj2 (proj2
             (@parseFinalOutput_never_throws sample_runtime)))))
             "{not json" eq_refl).
  - exact (proj1 (proj2 (proj2 (proj2 (proj2 (proj2
             (@parseFinalOutput_never_throws sample_runtime))))))
             (VObj [("final_output", VStr "[]"); ("results", VArr [VNull])])
             _ (VStr "[]") eq_refl eq_refl eq_refl eq_refl
             ltac:(discriminate)).
Defined.

(** While ["main"] runs its first search call, [thinkingRef] is in step with
    the live progress and a cancellation carries the snapshot of that call. *)
Example run_cancelled_with_tool_call :
  subAgentProgressRef search_started_state !! "main" = None /\
  ("main" ∉ processedTasksRef search_started_state) /\
  exists p s',
    thinkingRef search_started_state = Some p /\
    ThinkingProgress.tool_calls p <> ∅ /\
    @handleWSMessage sample_runtime search_started_state clock0
      (plain_event "main" "run_cancelled" VUndef) = Ok s' /\
    messages s' =
      (messages search_started_state ++
         [Message.mk (VNum (inject_Z 0)) (VStr "assistant")
            (VStr "Task was cancelled.") (VNum (inject_Z 0))
            (Some (ThinkingProgress.mk (ThinkingProgress.task_id p)
                     (ThinkingProgress.tool_calls p) true
                     (ThinkingProgress.final_output p)
                     (VStr "Task cancelled by user")))])%list.
Proof.
  assert (Hmain : subAgentProgressRef search_started_state !! "main" = None)
    by reflexivity.
  assert (Hnew : "main" ∉ processedTasksRef search_started_state).
  { intros Hin. vm_compute in Hin. discriminate Hin. }
  split; [exact Hmain|]. split; [exact Hnew|].
  destruct (@run_cancelled_main_message sample_runtime search_started_state clock0
              (plain_event "main" "run_cancelled" VUndef) Hmain eq_refl Hnew)
    as (s' & Hs & _ & Hsnap).
  eexists. exists s'. split; [vm_compute; reflexivity|].
  assert (Hcalls : ThinkingProgress.tool_calls
                     (ThinkingProgress.mk (VStr "main")
                        (<["s1" := ToolCall.mk (VStr "s1") (VStr "search") (VStr "{}")
                                     started VUndef VUndef]> ∅)
                        false VUndef VUndef) <> ∅).
  { simpl. apply insert_non_empty. }
  split; [exact Hcalls|]. split; [exact Hs|].
  apply (Hsnap _ eq_refl Hcalls).
Qed.


(** C9.  A cancelled task without tool calls should get the bare message.
    After ["main1"] ended, [thinkingRef] still holds its progress; the next
    task ["main2"] has recorded no tool call and no live progress, yet its
    [run_cancelled] message carries the tool call ["s1"] of ["main1"] as a
    snapshot. *)
Theorem cancelled_task_gets_previous_snapshot :
  currentThinking first_task_done_state = None /\
  subAgentProgressRef first_task_done_state !! "main2" = None /\
  ("main2" ∉ processedTasksRef first_task_done_state) /\
  exists s',
    @handleWSMessage sample_runtime first_task_done_state clock0
      (plain_event "main2" "run_cancelled" VUndef) = Ok s' /\
    last (messages s') =
      Some (Message.mk (VNum (inject_Z 0)) (VStr "assistant")
              (VStr "Task was cancelled.") (VNum (inject_Z 0))
              (Some (ThinkingProgress.mk (VStr "main1")
                       (<["s1" := ToolCall.mk (VStr "s1") (VStr "search")
                                    (VStr "{}") completed (VStr "out") VUndef]> ∅)
                       true VUndef (VStr "Task cancelled by user")))).
Proof.
  split; [reflexivity|]. split; [reflexivity|]. split.
  - intros Hin. vm_compute in Hin. discriminate Hin.
  - eexists. split; vm_compute; reflexivity.
Qed.

Lemma subagent_batch_event_ignored_witness :
  is_Some (subAgentProgressRef spawned_state !! "a") /\
  @handleWSMessage sample_runtime spawned_state clock0
    (plain_event "a" "batch_progress" (VObj [("progress", VNum 40)])) =
    Ok spawned_state.
Proof.
  assert (Hreg : is_Some (subAgentProgressRef spawned_state !! "a")).
  { eexists. vm_compute. reflexivity. }
  split; [exact Hreg|].
  exact (@subagent_batch_event_ignored sample_runtime spawned_state clock0
           (plain_event "a" "batch_progress" (VObj [("progress", VNum 40)]))
           Hreg eq_refl eq_refl).
Defined.

(** * The components that render the state *)

(** ** The dot progress bar *)

Lemma Qceiling_fifth n : Qceiling (inject_Z n / 5) = ((n + 4) / 5)%Z.
Proof.
  unfold Qceiling, Qfloor, Qdiv, Qmult, Qinv, Qopp, inject_Z. simpl.
  rewrite Z.mul_1_r. Z.div_mod_to_equations. lia.
Qed.

Lemma Qfloor_fifth n : Qfloor (inject_Z n / inject_Z 5) = (n / 5)%Z.
Proof.
  unfold Qfloor, Qdiv, Qmult, Qinv, inject_Z. simpl. now rewrite Z.mul_1_r.
Qed.

(** The clamp of [tick] never cuts: the step is at most the distance. *)
Lemma tick_step target prev :
  prev <> target ->
  tick target prev =
    (prev + Z.sgn (target - prev) * Z.max 1 ((Z.abs (target - prev) + 4) / 5))%Z.
Proof.
  intros Hne. unfold tick. rewrite (proj2 (Z.eqb_neq _ _) Hne).
  rewrite Qceiling_fifth.
  destruct (Z.ltb_spec 0 (target - prev)); Z.div_mod_to_equations; lia.
Qed.

Lemma tick_fixed target : tick target target = target.
Proof. unfold tick. now rewrite Z.eqb_refl. Qed.

Lemma tick_between target prev :
  prev <> target ->
  (Z.abs (target - tick target prev) < Z.abs (target - prev))%Z /\
  (Z.min prev target <= tick target prev <= Z.max prev target)%Z.
Proof.
  intros Hne. rewrite tick_step by exact Hne.
  Z.div_mod_to_equations. lia.
Qed.

Lemma tick_reaches n : forall target prev,
  (Z.abs (target - prev) <= Z.of_nat n)%Z ->
  Nat.iter n (tick target) prev = target.
Proof.
  induction n as [|n IH]; intros target prev Hd.
  - simpl. lia.
  - rewrite Nat.iter_succ_r.
    destruct (Z.eq_dec prev target) as [-> | Hne].
    + rewrite tick_fixed. apply IH. lia.
    + apply IH. pose proof (tick_between target prev Hne). lia.
Qed.

(** X15.  The animation of the dot bar converges: every tick moves the
    filled count strictly closer to the target without passing it, the
    target is a fixed point, and from any start the target is reached within
    as many ticks as the distance and kept from then on. *)
Theorem tick_converges target prev :
  tick target target = target /\
  (prev <> target ->
   (Z.abs (target - tick target prev) < Z.abs (target - prev))%Z /\
   (Z.min prev target <= tick target prev <= Z.max prev target)%Z) /\
  (forall n, (Z.abs (target - prev) <= Z.of_nat n)%Z ->
     Nat.iter n (tick target) prev = target).
Proof.
  split; [apply tick_fixed|]. split; [apply tick_between|].
  intros n. apply tick_reaches.
Qed.

(** X16.  [updateDots] never gives fewer than 10 columns, and for a container
    at least 48 pixels wide it gives the largest number of columns whose dots
    and gaps fit into the width. *)
Theorem updateDots_fits clientWidth :
  (10 <= updateDots clientWidth)%Z /\
  (forall w, clientWidth = Some w -> (48 <= w)%Z ->
     (updateDots clientWidth * DOT_SIZE + (updateDots clientWidth - 1) * GAP <= w)%Z /\
     (w < (updateDots clientWidth + 1) * DOT_SIZE + updateDots clientWidth * GAP)%Z).
Proof.
  split; [unfold updateDots; apply Z.le_max_l|].
  intros w -> Hw. unfold updateDots, DOT_SIZE, GAP. simpl default.
  change (3 + 2)%Z with 5%Z. rewrite Qfloor_fifth.
  Z.div_mod_to_equations. lia.
Qed.

Lemma target_dots_eq pct total :
  target_dots pct total = ((2 * (pct * total) + 100) / 200)%Z.
Proof.
  unfold target_dots, round_number, Qfloor, Qplus, Qdiv, Qmult, Qinv, inject_Z.
  simpl. f_equal; lia.
Qed.

(** X17.  For a percentage between 0 and 100 the number of filled dots lies
    between 0 and the number of dots, is 0 at 0 percent and all dots at 100
    percent, and does not decrease when the percentage grows. *)
Theorem target_dots_bounds pct pct' total :
  (0 <= pct <= pct')%Z -> (pct' <= 100)%Z -> (0 <= total)%Z ->
  (0 <= target_dots pct total <= total)%Z /\
  (target_dots pct total <= target_dots pct' total)%Z /\
  target_dots 0 total = 0%Z /\
  target_dots 100 total = total.
Proof.
  intros Hp Hp' Ht. rewrite !target_dots_eq.
  assert (0 <= pct * total <= pct' * total)%Z by nia.
  assert (pct' * total <= 100 * total)%Z by nia.
  repeat split; Z.div_mod_to_equations; lia.
Qed.

(** ** The two readers of search results *)

Section Renderers.
Context `{JsRuntime}.

Lemma search_resultsArr_tail parsed :
  (if isArray parsed then mret (as_array parsed)
   else if isArray (opt_get parsed "results")
        then r ← get parsed "results"; mret (as_array r)
        else mret None) =
  Ok (ParsedOutput.results (spec_interpret parsed)).
Proof.
  unfold spec_interpret, get, opt_get. unfold_outcome. simpl.
  destruct parsed as [| | b | q | str | items | fields]; simpl; try reflexivity.
  now destruct (assoc "results" fields).
Qed.

(** X18.  [ToolResultDisplay] and [parseFinalOutput] read search results with
    two copies of the same unwrapping, one keeping a string that fails to
    decode and one giving up on it; on every input they find the same
    results, and neither raises.  (The empty string is no JSON text.) *)
Theorem search_readers_agree result :
  JSON_parse "" = None ->
  exists parsed,
    parseFinalOutput result = Ok parsed /\
    search_resultsArr result = Ok (ParsedOutput.results parsed).
Proof.
  intros Hempty. unfold parseFinalOutput, search_resultsArr, parse_or_keep.
  destruct (truthy result) eqn:Htruthy; simpl.
  - destruct (parse_if_string result) as [e|parsed] eqn:Hparse.
    + (* the string does not decode: kept by one reader, dropped by the other *)
      eexists. split; [reflexivity|].
      destruct result; try discriminate Hparse. reflexivity.
    + destruct (negb (isArray parsed) && _) eqn:Hwrap.
      * unfold get. destruct (nullish parsed) eqn:Hnull.
        { destruct parsed; discriminate. }
        unfold_outcome.
        destruct (parse_if_string (prop parsed "final_output")) as [e|inner] eqn:Hinner.
        -- eexists. split; [reflexivity|].
           destruct (prop parsed "final_output"); try discriminate Hinner.
           reflexivity.
        -- rewrite results_and_findings_spec. eexists. split; [reflexivity|].
           apply search_resultsArr_tail.
      * rewrite results_and_findings_spec. eexists. split; [reflexivity|].
        unfold_outcome. apply search_resultsArr_tail.
  - (* a falsy result has no results either way *)
    eexists. split; [reflexivity|].
    destruct result as [| | [] | q | str | |]; try discriminate Htruthy;
      try reflexivity.
    simpl in Htruthy. apply negb_false_iff in Htruthy.
    apply String.eqb_eq in Htruthy. subst str. unfold parse_if_string.
    now rewrite Hempty.
Qed.

(** ** Rendering tool arguments *)

Section Arguments.
Variable URL_hostname : value -> option string.
Variable JSON_stringify_compact : value -> value.


End Arguments.


End Renderers.

(** ** The hosts of the aggregated sources *)

Section HostList.
Variable URL_hostname : value -> option string.

Lemma uniqueHosts_from_inv results : forall acc,
  NoDup acc -> (length acc < 3)%nat ->
  NoDup (uniqueHosts_from URL_hostname acc results) /\
  (length (uniqueHosts_from URL_hostname acc results) <= 3)%nat /\
  (forall host, host ∈ uniqueHosts_from URL_hostname acc results ->
     host ∈ acc \/
     exists item, item ∈ results /\ host_of URL_hostname item = Some host) /\
  (forall host, host ∈ acc -> host ∈ uniqueHosts_from URL_hostname acc results) /\
  ((length (uniqueHosts_from URL_hostname acc results) < 3)%nat ->
   forall item host, item ∈ results -> host_of URL_hostname item = Some host ->
     host ∈ uniqueHosts_from URL_hostname acc results).
Proof.
  induction results as [|item rest IH]; intros acc Hnd Hlen;
    cbn [uniqueHosts_from].
  - split; [exact Hnd|]. split; [lia|]. split; [now left|]. split; [auto|].
    intros _ item host Hin. now apply elem_of_nil in Hin.
  - set (acc' := match host_of URL_hostname item with
                 | Some host =>
                     if bool_decide (host ∈ acc) then acc else (acc ++ [host])%list
                 | None => acc
                 end).
    assert (Hacc' : NoDup acc' /\ (length acc' <= 3)%nat /\
                    (forall h, h ∈ acc -> h ∈ acc') /\
                    (forall h, h ∈ acc' ->
                       h ∈ acc \/ host_of URL_hostname item = Some h) /\
                    (forall h, host_of URL_hostname item = Some h -> h ∈ acc')).
    { subst acc'. destruct (host_of URL_hostname item) as [h0|].
      - destruct (bool_decide_reflect (h0 ∈ acc)) as [Hin | Hnin].
        + split; [exact Hnd|]. split; [lia|]. split; [auto|]. split; [auto|].
          intros h Hh. injection Hh as <-. exact Hin.
        + split; [|split; [|split; [|split]]].
          * apply NoDup_app. split; [exact Hnd|]. split; [|apply NoDup_singleton].
            intros x Hx Hx'. apply list_elem_of_singleton in Hx'. now subst.
          * rewrite length_app. simpl. lia.
          * intros h Hh. apply elem_of_app. now left.
          * intros h Hh. apply elem_of_app in Hh as [Hh | Hh]; [now left|].
            apply list_elem_of_singleton in Hh. right. now subst.
          * intros h Hh. injection Hh as <-. apply elem_of_app. right.
            now apply list_elem_of_singleton.
      - split; [exact Hnd|]. split; [lia|]. split; [auto|]. split; [auto|].
        intros h Hh. discriminate. }
    destruct Hacc' as (Hnd' & Hlen' & Hsub & Hfrom & Hitem).
    destruct (Nat.leb_spec 3 (length acc')) as [Hfull | Hroom].
    + split; [exact Hnd'|]. split; [exact Hlen'|]. split; [|split].
      * intros h Hh. destruct (Hfrom h Hh) as [Hacc | Hhost]; [now left|].
        right. exists item. split; [left | exact Hhost].
      * exact Hsub.
      * intros Hlt. lia.
    + destruct (IH acc' Hnd' Hroom) as (Hnd2 & Hlen2 & Hfrom2 & Hsub2 & Hall2).
      split; [exact Hnd2|]. split; [exact Hlen2|]. split; [|split].
      * intros h Hh. destruct (Hfrom2 h Hh) as [Hacc | (it & Hit & Hhost)].
        -- destruct (Hfrom h Hacc) as [Ha | Hhost]; [now left|].
           right. exists item. split; [left | exact Hhost].
        -- right. exists it. split; [now right | exact Hhost].
      * intros h Hh. apply Hsub2, Hsub, Hh.
      * intros Hlt it h Hin Hhost. apply elem_of_cons in Hin as [-> | Hin].
        -- apply Hsub2, Hitem, Hhost.
        -- now apply (Hall2 Hlt it h).
Qed.

(** X21.  [AggregatedSourcesBar] shows nothing for an empty list; otherwise
    it counts all results and shows at most three hostnames, pairwise
    distinct, each the hostname of some result; when it shows fewer than
    three, it shows the hostname of every result that has one. *)
Theorem AggregatedSourcesBar_hosts results :
  AggregatedSourcesBar URL_hostname [] = None /\
  (results <> [] ->
   exists hosts,
     AggregatedSourcesBar URL_hostname results = Some (hosts, length results) /\
     NoDup hosts /\ (length hosts <= 3)%nat /\
     (forall host, host ∈ hosts ->
        exists item, item ∈ results /\ host_of URL_hostname item = Some host) /\
     ((length hosts < 3)%nat ->
      forall item host, item ∈ results -> host_of URL_hostname item = Some host ->
        host ∈ hosts)).
Proof.
  split; [reflexivity|]. intros Hne.
  destruct (uniqueHosts_from_inv results [] (NoDup_nil_2 (A:=string)) ltac:(simpl; lia))
    as (Hnd & Hlen & Hfrom & _ & Hall).
  exists (uniqueHosts_from URL_hostname [] results).
  split; [destruct results; [congruence | reflexivity]|].
  split; [exact Hnd|]. split; [exact Hlen|]. split; [|exact Hall].
  intros host Hh. destruct (Hfrom host Hh) as [Hnil | Hitem]; [|exact Hitem].
  now apply elem_of_nil in Hnil.
Qed.

End HostList.

(** ** The aggregated sources *)










Section Aggregation.
Context `{JsRuntime}.
Variable Object_values : gmap string ToolCall.t -> list ToolCall.t.







End Aggregation.

(** ** The further properties at sample inputs *)

Lemma registry_mirror_after_events_witness :
  exists s',
    @run_events sample_runtime initial_state
      (frames [started_event "main" "r1" "research"; research_event]) = Ok s' /\
    subAgentProgressRef s' = subAgentProgress s'.
Proof.
  eexists. split; [vm_compute; reflexivity|].
  apply (@registry_mirror_after_events sample_runtime
           (frames [started_event "main" "r1" "research"; research_event])).
  vm_compute. reflexivity.
Defined.

Lemma live_progress_mirrored_after_events_witness :
  exists s' p,
    @run_events sample_runtime initial_state
      (frames [started_event "main" "s1" "search"]) = Ok s' /\
    currentThinking s' = Some p /\
    thinkingRef s' = Some p.
Proof.
  eexists. eexists. split; [vm_compute; reflexivity|]. split; [reflexivity|].
  apply (@live_progress_mirrored_after_events sample_runtime
           (frames [started_event "main" "s1" "search"])).
  - vm_compute. reflexivity.
  - reflexivity.
Defined.

Lemma processed_and_registry_only_grow_witness :
  exists s',
    @run_events sample_runtime spawned_state
      (frames [plain_event "a" "agent_output" (VStr "x")]) = Ok s' /\
    processedTasksRef spawned_state ⊆ processedTasksRef s' /\
    dom (subAgentProgress spawned_state) ⊆ dom (subAgentProgress s').
Proof.
  eexists. split; [vm_compute; reflexivity|].
  apply (@processed_and_registry_only_grow sample_runtime
           (frames [plain_event "a" "agent_output" (VStr "x")])).
  vm_compute. reflexivity.
Defined.

Lemma main_terminal_event_twice_witness :
  subAgentProgressRef search_started_state !! "main" = None /\
  exists s1,
    @handleWSMessage sample_runtime search_started_state clock0
      (plain_event "main" "agent_output" (VStr "done")) = Ok s1 /\
    @handleWSMessage sample_runtime s1 clock0
      (plain_event "main" "agent_output" (VStr "done")) = Ok s1 /\
    length (messages s1) =
      if decide ("main" ∈ processedTasksRef search_started_state)
      then length (messages search_started_state)
      else S (length (messages search_started_state)).
Proof.
  split; [reflexivity|].
  eexists. split; [vm_compute; reflexivity|].
  apply (@main_terminal_event_twice sample_runtime search_started_state clock0 clock0
           (plain_event "main" "agent_output" (VStr "done"))).
  - reflexivity.
  - reflexivity.
  - vm_compute. reflexivity.
Defined.

Lemma started_then_completed_witness :
  exists s1 s2 p,
    @handleWSMessage sample_runtime initial_state clock0
      (started_event "main" "s1" "search") = Ok s1 /\
    @handleWSMessage sample_runtime s1 clock0
      (completed_event "main" "s1" "search" (VStr "out")) = Ok s2 /\
    currentThinking s2 = Some p /\
    ThinkingProgress.tool_calls p !! "s1" =
      Some (ToolCall.mk (VStr "s1") (VStr "search") (VStr "{}") completed
              (VStr "out") VUndef).
Proof.
  exact (@started_then_completed sample_runtime initial_state clock0 clock0
           (started_event "main" "s1" "search")
           (completed_event "main" "s1" "search" (VStr "out"))
           eq_refl eq_refl eq_refl eq_refl eq_refl eq_refl eq_refl eq_refl).
Defined.

Lemma tool_call_entry_frame_witness :
  exists s' p,
    @handleWSMessage sample_runtime search_started_state clock0
      (started_event "other" "s2" "scrape") = Ok s' /\
    currentThinking search_started_state = Some p /\
    ((exists p', currentThinking s' = Some p' /\
        ThinkingProgress.tool_calls p' !! "s1" =
          Some (ToolCall.mk (VStr "s1") (VStr "search") (VStr "{}") started
                  VUndef VUndef)) \/
     (currentThinking s' = None /\
      subAgentProgressRef search_started_state !! "other" = None /\
      is_terminal progress_update_tool_action_started = true /\
      "other" ∉ processedTasksRef search_started_state)).
Proof.
  eexists. eexists. split; [vm_compute; reflexivity|]. split; [reflexivity|].
  apply (proj1 (@tool_call_entry_frame sample_runtime search_started_state clock0
                  (started_event "other" "s2" "scrape") _ "s1"
                  (ToolCall.mk (VStr "s1") (VStr "search") (VStr "{}") started
                     VUndef VUndef)
                  ltac:(vm_compute; reflexivity)) _ eq_refl eq_refl).
  right. discriminate.
Defined.

Lemma tool_calls_never_removed_witness :
  exists s' p,
    @handleWSMessage sample_runtime a_done_state clock0
      (failed_event "a" "t1" "search" "boom") = Ok s' /\
    subAgentProgress a_done_state !! "a" = Some p /\
    forall key, is_Some (ThinkingProgress.tool_calls p !! key) ->
      exists p', subAgentProgress s' !! "a" = Some p' /\
        is_Some (ThinkingProgress.tool_calls p' !! key).
Proof.
  eexists. eexists. split; [vm_compute; reflexivity|]. split; [reflexivity|].
  intros key.
  apply (proj2 (@tool_calls_never_removed sample_runtime a_done_state clock0
                  (failed_event "a" "t1" "search" "boom") _ key
                  ltac:(vm_compute; reflexivity)) "a" _ eq_refl).
Defined.

Lemma failed_then_completed_keeps_error_witness :
  exists s1 s2 p2,
    @handleWSMessage sample_runtime search_started_state clock0
      (failed_event "main" "s1" "search" "boom") = Ok s1 /\
    @handleWSMessage sample_runtime s1 clock0
      (completed_event "main" "s1" "search" (VStr "out")) = Ok s2 /\
    currentThinking s2 = Some p2 /\
    ThinkingProgress.tool_calls p2 !! "s1" =
      Some (ToolCall.mk (VStr "s1") (VStr "search") (VStr "{}") completed
              (VStr "out") (VStr "boom")).
Proof.
  exact (@failed_then_completed_keeps_error sample_runtime search_started_state
           clock0 clock0
           (failed_event "main" "s1" "search" "boom")
           (completed_event "main" "s1" "search" (VStr "out"))
           _ (ToolCall.mk (VStr "s1") (VStr "search") (VStr "{}") started
                VUndef VUndef)
           eq_refl eq_refl eq_refl eq_refl eq_refl eq_refl eq_refl eq_refl eq_refl).
Defined.


Lemma agent_output_snapshot_from_ref_witness :
  currentThinking first_task_done_state = None /\
  exists p s' content,
    thinkingRef first_task_done_state = Some p /\
    @handleWSMessage sample_runtime first_task_done_state clock0
      (plain_event "main2" "agent_output" (VStr "again")) = Ok s' /\
    messages s' =
      (messages first_task_done_state ++
         [assistant_message clock0 content
            (Some (ThinkingProgress.mk (ThinkingProgress.task_id p)
                     (ThinkingProgress.tool_calls p) true (VStr "again")
                     (ThinkingProgress.error p)))])%list.
Proof.
  split; [reflexivity|]. eexists.
  assert (Hnew : "main2" ∉ processedTasksRef first_task_done_state).
  { intros Hin. vm_compute in Hin. discriminate Hin. }
  destruct (@agent_output_snapshot_from_ref sample_runtime first_task_done_state
              clock0 (plain_event "main2" "agent_output" (VStr "again")) _
              eq_refl eq_refl Hnew eq_refl eq_refl) as (s' & content & Hs & Hm).
  exists s', content. split; [reflexivity|]. split; [exact Hs | exact Hm].
Defined.

Lemma live_progress_never_complete_witness :
  exists s' p,
    @run_events sample_runtime initial_state
      (frames [started_event "main" "s1" "search";
               plain_event "main" "completion_failed" VUndef]) = Ok s' /\
    currentThinking s' = Some p /\
    ThinkingProgress.is_complete p = false /\
    ThinkingProgress.final_output p = VUndef.
Proof.
  eexists. eexists. split; [vm_compute; reflexivity|]. split; [reflexivity|].
  eapply (@live_progress_never_complete sample_runtime
           (frames [started_event "main" "s1" "search";
                    plain_event "main" "completion_failed" VUndef])).
  - vm_compute. reflexivity.
  - reflexivity.
Defined.

Lemma live_progress_keeps_task_id_witness :
  exists s' p p',
    @handleWSMessage sample_runtime search_started_state clock0
      (started_event "other" "s2" "scrape") = Ok s' /\
    currentThinking search_started_state = Some p /\
    currentThinking s' = Some p' /\
    ThinkingProgress.task_id p = VStr "main" /\
    ThinkingProgress.task_id p' = ThinkingProgress.task_id p.
Proof.
  eexists. eexists. eexists.
  split; [vm_compute; reflexivity|]. split; [reflexivity|].
  split; [reflexivity|]. split; [reflexivity|].
  eapply (@live_progress_keeps_task_id sample_runtime search_started_state clock0
           (started_event "other" "s2" "scrape")).
  - vm_compute. reflexivity.
  - reflexivity.
  - reflexivity.
Defined.

Lemma registry_entries_keyed_by_task_id_witness :
  exists s' p,
    @run_events sample_runtime initial_state
      (frames [started_event "main" "r1" "research"; research_event]) = Ok s' /\
    subAgentProgress s' !! "a" = Some p /\
    @to_key sample_runtime (ThinkingProgress.task_id p) = "a".
Proof.
  eexists. eexists. split; [vm_compute; reflexivity|]. split; [reflexivity|].
  eapply (@registry_entries_keyed_by_task_id sample_runtime
            (frames [started_event "main" "r1" "research"; research_event])).
  - repeat constructor.
  - vm_compute. reflexivity.
  - reflexivity.
Defined.


Lemma target_dots_bounds_witness :
  (0 <= target_dots 25 60 <= 60)%Z /\
  (target_dots 25 60 <= target_dots 50 60)%Z /\
  target_dots 0 60 = 0%Z /\
  target_dots 100 60 = 60%Z.
Proof.
  apply (target_dots_bounds 25 50 60); lia.
Defined.

Lemma search_readers_agree_witness :
  exists parsed,
    @parseFinalOutput sample_runtime
      (VObj [("final_output", VObj [("results", VArr [VStr "r"])])]) = Ok parsed /\
    @search_resultsArr sample_runtime
      (VObj [("final_output", VObj [("results", VArr [VStr "r"])])]) =
      Ok (ParsedOutput.results parsed).
Proof.
  exact (@search_readers_agree sample_runtime
           (VObj [("final_output", VObj [("results", VArr [VStr "r"])])]) eq_refl).
Defined.

